(** * The unified LLM invocation layer: [ai] and [handleAICallAPIError]

    A shallow embedding of
      packages/core/src/services/ai/index.ts        ([ai])
      packages/core/src/services/ai/handleError.ts  ([handleAICallAPIError])

    [ai] is an orchestration of collaborators that live in other modules
    ([applyAllRules], [createProvider], [getLanguageModel], [buildTools],
    the streaming transport [streamText]); any of them may throw.  The
    embedding runs [ai] in a writer-plus-exception monad: a run yields the
    ordered list of events it performed (collaborator calls and console
    output) and either a thrown value or a returned one.  JavaScript objects
    whose set of keys matters (the configuration, the argument of
    [streamText], the returned success value) are finite maps from key to
    value.

    The inputs are values of the TypeScript types the signatures declare.
    A collaborator is a function of its arguments that throws or returns.
    So are the two conversions the runtime applies to data the code knows
    nothing about: the string conversion of a template literal, which throws
    on a Symbol, and [JSON.stringify], which throws on a BigInt and on an
    object that contains itself.  [console.log] returns. *)

From Stdlib Require Import Ascii.
From Stdlib Require String.
From stdpp Require Import base option gmap strings list fin_maps.

(** ** Strings as the runtime sees them *)

Module JS.

(** The line feed written ['\n'] in the source. *)
Definition nl : string := String (ascii_of_nat 10) EmptyString.

(** [Array.prototype.join] on an array of strings. *)
Fixpoint join (sep : string) (xs : list string) : string :=
  match xs with
  | [] => ""
  | [x] => x
  | x :: rest => x +:+ sep +:+ join sep rest
  end.

(** [s.substring(0, n)]: the first [n] characters, or all of [s] when it is
    shorter. *)
Definition substring0 (n : nat) (s : string) : string :=
  String.substring 0 n s.

(** [s.startsWith(p)]. *)
Definition startsWith (p s : string) : bool := String.prefix p s.

(** [s.substring(0, 100) + (s.length > 100 ? '...' : '')], the truncation
    both diagnostic blocks apply to text. *)
Definition truncate100 (s : string) : string :=
  substring0 100 s +:+ (if Nat.ltb 100 (String.length s) then "..." else "").

End JS.

(** ** Typed results and chain errors *)

(** [RunErrorCodes], restricted to the members named in the return type of
    [ai]. *)
Inductive RunErrorCodes : Type :=
| AIProviderConfigError
| AIRunError
| Unknown.

(** [new ChainError({ code, message })]. *)
Record ChainError : Type := mkChainError {
  code : RunErrorCodes;
  message : string;
}.

(** [TypedResult<V, E>]: [Result.ok(v)] or [Result.error(e)]. *)
Inductive TypedResult (V E : Type) : Type :=
| ResultOk (value : V)
| ResultError (error : E).
Arguments ResultOk {V E} value.
Arguments ResultError {V E} error.

(** ** Messages and their content parts *)

(** The payload of an image or file part: [string | Uint8Array | Buffer |
    ArrayBuffer | URL], or [undefined] when the field is missing. *)
Inductive DataValue : Type :=
| DUndefined
| DString (s : string)
| DBuffer (bytes : list Byte.byte)
| DUint8Array (bytes : list Byte.byte)
| DArrayBuffer (bytes : list Byte.byte)
| DURL (href : string).

Module Data.

(** [typeof d]. *)
Definition typeOf (d : DataValue) : string :=
  match d with
  | DUndefined => "undefined"
  | DString _ => "string"
  | _ => "object"
  end.

(** [!!d]: only [undefined] and the empty string are falsy. *)
Definition truthy (d : DataValue) : bool :=
  match d with
  | DUndefined => false
  | DString s => negb (Nat.eqb (String.length s) 0)
  | _ => true
  end.

(** [d instanceof Buffer]. *)
Definition isBuffer (d : DataValue) : bool :=
  match d with DBuffer _ => true | _ => false end.

(** [d instanceof Uint8Array]; a Buffer is one too. *)
Definition isUint8Array (d : DataValue) : bool :=
  match d with DBuffer _ | DUint8Array _ => true | _ => false end.

(** [d?.length]. *)
Definition length (d : DataValue) : option nat :=
  match d with
  | DString s => Some (String.length s)
  | DBuffer b | DUint8Array b => Some (List.length b)
  | _ => None
  end.

(** [d?.byteLength]. *)
Definition byteLength (d : DataValue) : option nat :=
  match d with
  | DBuffer b | DUint8Array b | DArrayBuffer b => Some (List.length b)
  | _ => None
  end.

(** [a || b] where [a] is a number or [undefined] and [b] a number. *)
Definition orNumber (a : option nat) (b : nat) : nat :=
  match a with
  | Some (S n) => S n
  | _ => b
  end.

(** [d?.length || d?.byteLength || (typeof d === 'string' ? d.length : 0)]. *)
Definition size (d : DataValue) : nat :=
  orNumber (length d)
    (orNumber (byteLength d)
       (match d with DString s => String.length s | _ => 0 end)).

(** [typeof d === 'string' && (d.startsWith('http') || d.startsWith('data:'))]. *)
Definition isURL (d : DataValue) : bool :=
  match d with
  | DString s => JS.startsWith "http" s || JS.startsWith "data:" s
  | _ => false
  end.

(** [a || b] on two payloads. *)
Definition orData (a b : DataValue) : DataValue :=
  if truthy a then a else b.

End Data.

(** A content part, read the way the diagnostic code reads it: through the
    fields [type], [text], [image], [file], [data] and [mimeType], each of
    which may be missing. *)
Record ContentPart : Type := mkContentPart {
  part_type : string;
  part_text : option string;
  part_image : DataValue;
  part_file : DataValue;
  part_data : DataValue;
  part_mimeType : option string;
}.

(** [imageInfo] of the diagnostic snapshot. *)
Record ImageInfo : Type := mkImageInfo {
  ii_present : bool;
  ii_dataType : string;
  ii_isURL : bool;
  ii_isBuffer : bool;
  ii_isUint8Array : bool;
  ii_size : nat;
  ii_preview : string;
}.

(** [fileInfo] of the diagnostic snapshot. *)
Record FileInfo : Type := mkFileInfo {
  fi_present : bool;
  fi_mimeType : option string;
  fi_dataType : string;
  fi_size : nat;
}.

(** The object built for one content part: [{ type }] plus, by type, [text],
    [imageInfo] or [fileInfo]. *)
Inductive ContentSnapshot : Type :=
| SnapText (type : string) (text : string)
| SnapImage (type : string) (imageInfo : ImageInfo)
| SnapFile (type : string) (fileInfo : FileInfo)
| SnapBare (type : string).

Module Diagnostics.

(** [c.text?.substring(0, 100) + (c.text?.length > 100 ? '...' : '')]; a
    missing text concatenates as the word "undefined". *)
Definition textField (text : option string) : string :=
  match text with
  | Some s => JS.truncate100 s
  | None => "undefined"
  end.

(** The [preview] entry: URLs and data URIs in full, other strings cut to
    100 characters and always followed by '...', anything else a label. *)
Definition preview (imageData : DataValue) : string :=
  match imageData with
  | DString s =>
      if JS.startsWith "http" s || JS.startsWith "data:" s
      then s
      else JS.substring0 100 s +:+ "..."
  | _ => "Binary data"
  end.

Definition imageInfo (imageData : DataValue) : ImageInfo :=
  {| ii_present := Data.truthy imageData;
     ii_dataType := Data.typeOf imageData;
     ii_isURL := Data.isURL imageData;
     ii_isBuffer := Data.isBuffer imageData;
     ii_isUint8Array := Data.isUint8Array imageData;
     ii_size := Data.size imageData;
     ii_preview := preview imageData |}.

Definition fileInfo (fileData : DataValue) (mimeType : option string) : FileInfo :=
  {| fi_present := Data.truthy fileData;
     fi_mimeType := mimeType;
     fi_dataType := Data.typeOf fileData;
     fi_size := Data.size fileData |}.

(** The part mapper of either diagnostic block; [fileOf] is how the block
    finds the file payload. *)
Definition snapshotWith (fileOf : ContentPart -> DataValue) (c : ContentPart)
  : ContentSnapshot :=
  if String.eqb (part_type c) "text" then
    SnapText (part_type c) (textField (part_text c))
  else if String.eqb (part_type c) "image" then
    SnapImage (part_type c) (imageInfo (part_image c))
  else if String.eqb (part_type c) "file" then
    SnapFile (part_type c) (fileInfo (fileOf c) (part_mimeType c))
  else SnapBare (part_type c).

(** Before the rules run: the file payload is [c.file]. *)
Definition snapshotOriginal : ContentPart -> ContentSnapshot :=
  snapshotWith part_file.

(** After the rules ran: the file payload is [c.data || c.file]. *)
Definition snapshotConverted : ContentPart -> ContentSnapshot :=
  snapshotWith (fun c => Data.orData (part_data c) (part_file c)).

End Diagnostics.

(** ** The orchestrator's world

    [JSValue] stands for plain data the orchestrator never looks into
    (configuration entries, thrown non-error values); [Obj] for the objects
    it only hands on (telemetry context, adapter, language model, tool set,
    abort signal, schema, streams and promises). *)

Section Model.

Context {JSValue Obj : Type}.

(** [msg.content]: a string or an array of parts; the diagnostic code
    passes anything else through untouched. *)
Inductive MessageContent : Type :=
| ContentString (s : string)
| ContentArray (parts : list ContentPart)
| ContentOther (v : JSValue).

Record Message : Type := mkMessage {
  msg_role : string;
  msg_content : MessageContent;
}.

(** [VercelConfig]: an object of configuration entries. *)
Local Abbreviation VercelConfig := (gmap string JSValue) (only parsing).

(** [ProviderApiKey], the credential. *)
Record ProviderApiKey : Type := mkProviderApiKey {
  pk_provider : string;
  pk_token : string;
  pk_url : option string;
}.

(** [ObjectOutput] without its [undefined] member, which is [None]. *)
Inductive ObjectOutput : Type :=
| OutObject
| OutArray
| OutNoSchema.

(** What a [catch] clause may receive. *)
Inductive Thrown : Type :=
| APICallError (message : string) (responseBody : option string)
               (url : string) (requestBodyValues : JSValue)
| ErrorValue (message : string)
| OtherValue (v : JSValue).

(** *** The runtime

    The conversions of the language that the code applies to data it knows
    nothing about.  Each may throw. *)
Record Runtime : Type := mkRuntime {
  (** The string a template literal makes of a value.  A Symbol and an
      object without a [toString] have none: the conversion throws. *)
  toString : JSValue -> Thrown + string;
  (** What [JSON.stringify(v, null, 2)] throws on a value, if it throws (it
      does on a BigInt and on an object that contains itself). *)
  stringifyValue : JSValue -> option Thrown;
  (** The same on a configuration object. *)
  stringifyConfig : gmap string JSValue -> option Thrown;
}.

(** Values stored in the objects [ai] builds. *)
Inductive Value : Type :=
| VUndefined
| VString (s : string)
| VData (v : JSValue)
| VObj (o : Obj)
| VMessages (ms : list Message)
| VTelemetry (isEnabled : bool)
| VSmoothStream
| VOutputObject (schema : Obj).

(** [o.k] on a configuration: a missing key reads [undefined]. *)
Definition getField (o : VercelConfig) (k : string) : Value :=
  match o !! k with
  | Some v => VData v
  | None => VUndefined
  end.

Definition optValue {A} (f : A -> Value) (x : option A) : Value :=
  match x with
  | Some a => f a
  | None => VUndefined
  end.

(** *** Collaborators *)

Record AppliedRule : Type := mkAppliedRule {
  ar_rule : string;
  ar_ruleMessage : string;
}.

(** The value of [applyAllRules]. *)
Record AppliedRules : Type := mkAppliedRules {
  rules : list AppliedRule;
  rules_messages : list Message;
  rules_config : VercelConfig;
}.

Record ApplyAllRulesArgs : Type := mkApplyAllRulesArgs {
  aar_providerType : string;
  aar_messages : list Message;
  aar_config : VercelConfig;
}.

Record CreateProviderArgs : Type := mkCreateProviderArgs {
  cp_context : Obj;
  cp_messages : list Message;
  cp_provider : ProviderApiKey;
  cp_apiKey : string;
  cp_url : option string;
  cp_config : VercelConfig;
}.

Record GetLanguageModelArgs : Type := mkGetLanguageModelArgs {
  glm_llmProvider : Obj;
  glm_provider : ProviderApiKey;
  glm_config : VercelConfig;
  glm_model : option JSValue;
}.

(** The fields of a [StreamTextResult] that [ai] reads. *)
Record StreamTextResult : Type := mkStreamTextResult {
  sr_fullStream : Obj;
  sr_text : Obj;
  sr_reasoning : Obj;
  sr_usage : Obj;
  sr_toolCalls : Obj;
  sr_providerMetadata : Obj;
  sr_sources : Obj;
  sr_finishReason : Obj;
  sr_response : Obj;
}.

Definition StreamTextFn : Type := gmap string Value -> Thrown + StreamTextResult.

(** The modules [ai] imports.  Each function either throws or returns. *)
Record Imports : Type := mkImports {
  applyAllRules : ApplyAllRulesArgs -> Thrown + AppliedRules;
  createProvider : CreateProviderArgs -> Thrown + TypedResult Obj ChainError;
  getLanguageModel : GetLanguageModelArgs -> Thrown + Obj;
  buildTools : option JSValue -> Thrown + TypedResult (option Obj) ChainError;
  originalStreamText : StreamTextFn;
}.

(** [Partial<AISDKProvider>]: the key [streamText] is missing, present and
    [undefined], or present with a function. *)
Inductive PartialAISDKProvider : Type :=
| NoStreamText
| StreamTextUndefined
| StreamTextOverride (f : StreamTextFn).

(** The argument of [ai]. *)
Record AIInput : Type := mkAIInput {
  context : Obj;
  provider : ProviderApiKey;
  prompt : option string;
  messages : list Message;
  config : VercelConfig;
  schema : option Obj;
  output : option ObjectOutput;
  aiSdkProvider : option PartialAISDKProvider;
  abortSignal : option Obj;
}.

(** *** Events of a run *)

Record MessageSnapshot : Type := mkMessageSnapshot {
  snap_role : string;
  snap_content : string + list ContentSnapshot + JSValue;
}.

(** One argument of a [console.log] call.  [LMessages ms] and [LConfig c]
    stand for the text [JSON.stringify] made of [ms] and of [c]. *)
Inductive LogArg : Type :=
| LString (s : string)
| LNumber (n : nat)
| LField (v : Value)
| LMessages (ms : list MessageSnapshot)
| LConfig (c : VercelConfig)
| LThrown (e : Thrown).

Inductive Event : Type :=
| EvConsoleLog (args : list LogArg)
| EvThen (promise : Obj) (banner : string)
| EvApplyAllRules (args : ApplyAllRulesArgs)
| EvCreateProvider (args : CreateProviderArgs)
| EvGetLanguageModel (args : GetLanguageModelArgs)
| EvBuildTools (tools : option JSValue)
| EvStreamText (args : gmap string Value).

Inductive Callee : Type :=
| KApplyAllRules
| KCreateProvider
| KGetLanguageModel
| KBuildTools
| KStreamText.

Definition callee (ev : Event) : option Callee :=
  match ev with
  | EvConsoleLog _ | EvThen _ _ => None
  | EvApplyAllRules _ => Some KApplyAllRules
  | EvCreateProvider _ => Some KCreateProvider
  | EvGetLanguageModel _ => Some KGetLanguageModel
  | EvBuildTools _ => Some KBuildTools
  | EvStreamText _ => Some KStreamText
  end.

Definition isCallTo (k : Callee) (ev : Event) : bool :=
  match callee ev, k with
  | Some KApplyAllRules, KApplyAllRules
  | Some KCreateProvider, KCreateProvider
  | Some KGetLanguageModel, KGetLanguageModel
  | Some KBuildTools, KBuildTools
  | Some KStreamText, KStreamText => true
  | _, _ => false
  end.

Definition isCall (ev : Event) : bool :=
  match callee ev with Some _ => true | None => false end.

(** The calls a run made to collaborator [k], in order. *)
Definition invocations (k : Callee) (t : list Event) : list Event :=
  List.filter (isCallTo k) t.

(** A run with its diagnostic output removed. *)
Definition calls (t : list Event) : list Event :=
  List.filter isCall t.

(** *** Runs: a trace and a thrown or returned value *)

Definition Run (A : Type) : Type := list Event * (Thrown + A).

Definition trace {A} (r : Run A) : list Event := fst r.
Definition outcome {A} (r : Run A) : Thrown + A := snd r.

Definition ret {A} (a : A) : Run A := ([], inr a).

Definition throw {A} (e : Thrown) : Run A := ([], inl e).

Definition bind {A B} (m : Run A) (k : A -> Run B) : Run B :=
  match m with
  | (t, inl e) => (t, inl e)
  | (t, inr a) => (t ++ trace (k a), outcome (k a))
  end.

(** [try { m } catch (e) { h e }]. *)
Definition tryCatch {A} (m : Run A) (h : Thrown -> Run A) : Run A :=
  match m with
  | (t, inl e) => (t ++ trace (h e), outcome (h e))
  | (t, inr a) => (t, inr a)
  end.

(** A collaborator call: the event, then whatever the collaborator did. *)
Definition call {A} (ev : Event) (r : Thrown + A) : Run A := ([ev], r).

(** An expression of the language that throws or has a value. *)
Definition evaluate {A} (r : Thrown + A) : Run A := ([], r).

(** [JSON.stringify(x, null, 2)], given what it throws on [x] if it throws;
    the text it returns is shown in a log event by [x] itself. *)
Definition jsonStringify (thrown : option Thrown) : Run unit :=
  match thrown with
  | Some e => throw e
  | None => ret tt
  end.

Definition consoleLog (args : list LogArg) : Run unit :=
  ([EvConsoleLog args], inr tt).

(** [promise.then(log).catch(() => {})]: attaching the observer is all
    that happens before [ai] returns. *)
Definition thenLog (promise : Obj) (banner : string) : Run unit :=
  ([EvThen promise banner], inr tt).

Definition when (b : bool) (m : Run unit) : Run unit :=
  if b then m else ret tt.

(** The collaborator calls of a run. *)
Definition callsOf {A} (m : Run A) : list Event := calls (trace m).

(** A run that returns without calling any collaborator: console output
    and nothing else. *)
Definition silent (m : Run unit) : Prop :=
  outcome m = inr tt ∧ callsOf m = [].

End Model.

Declare Scope run_scope.
Delimit Scope run_scope with run.
Notation "'let*' x ':=' m 'in' k" := (bind m (fun x => k))
  (at level 10, x name, m at level 100, k at level 200) : run_scope.

(** ** The Error Translator and the Orchestrator *)

Section Orchestrator.

Context {JSValue Obj : Type}.

Variable runtime : @Runtime JSValue.

Local Abbreviation VercelConfig := (gmap string JSValue) (only parsing).
Local Open Scope run_scope.

(** [process.env.DEBUG_AI === 'true']. *)
Definition debugEnabled (processEnv : gmap string string) : bool :=
  bool_decide (processEnv !! "DEBUG_AI" = Some "true").

(** A template literal hole filled with a string or [undefined]. *)
Definition optionToString (s : option string) : string :=
  match s with
  | Some x => x
  | None => "undefined"
  end.

(** The message [handleAICallAPIError] puts in its [ChainError]; the last
    template literal converts the caught value itself, and throws what the
    conversion throws. *)
Definition errorMessage (e : @Thrown JSValue) : @Thrown JSValue + string :=
  match e with
  | APICallError message responseBody _ _ =>
      inr ("Error: " +:+ message +:+ " and response body: "
           +:+ optionToString responseBody)
  | ErrorValue message => inr ("Unknown error: " +:+ message)
  | OtherValue v =>
      match toString runtime v with
      | inl thrown => inl thrown
      | inr s => inr ("Unknown error: " +:+ s)
      end
  end.

(** What becomes of a caught value: the failure
    [Result.error(new ChainError({ code: RunErrorCodes.AIRunError, message }))],
    or the value thrown while the message was made. *)
Definition translated {V : Type} (e : @Thrown JSValue)
  : @Thrown JSValue + TypedResult V ChainError :=
  match errorMessage e with
  | inl thrown => inl thrown
  | inr message => inr (ResultError {| code := AIRunError; message := message |})
  end.

(** The console output of [handleAICallAPIError] for an [APICallError]. *)
Definition debugAPIError (e : @Thrown JSValue) : Run (Obj := Obj) unit :=
  match e with
  | APICallError message responseBody url requestBodyValues =>
      let* _ := consoleLog [LString (JS.nl +:+ "=== AI API Error Details ===")] in
      let* _ := consoleLog [LString "Message:"; LString message] in
      let* _ := consoleLog [LString "Response Body:";
                            LField (optValue VString responseBody)] in
      let* _ := consoleLog [LString "URL:"; LString url] in
      let* _ := consoleLog [LString "Request Body:";
                            LField (VData requestBodyValues)] in
      consoleLog [LString "Full Error:"; LThrown e]
  | _ => ret tt
  end.

(** [handleAICallAPIError(e)] of handleError.ts. *)
Definition handleAICallAPIError {V : Type} (processEnv : gmap string string)
    (e : @Thrown JSValue) : Run (Obj := Obj) (TypedResult V ChainError) :=
  let debugAI := debugEnabled processEnv in
  let* _ := when debugAI (debugAPIError e) in
  let* message := evaluate (errorMessage e) in
  ret (ResultError {| code := AIRunError; message := message |}).

(** *** Diagnostic snapshots of the messages *)

Definition snapshotMessage (part : ContentPart -> ContentSnapshot)
    (msg : @Message JSValue) : @MessageSnapshot JSValue :=
  {| snap_role := msg_role msg;
     snap_content :=
       match msg_content msg with
       | ContentArray parts => inl (inr (List.map part parts))
       | ContentString s => inl (inl (JS.truncate100 s))
       | ContentOther v => inr v
       end |}.

(** What [JSON.stringify] throws on the snapshot of the messages, if it
    throws.  Roles, texts, sizes and flags are strings, numbers and
    booleans; only a content that was handed over as it is can be anything. *)
Fixpoint stringifyMessages (ms : list (@MessageSnapshot JSValue))
  : option (@Thrown JSValue) :=
  match ms with
  | [] => None
  | m :: rest =>
      match snap_content m with
      | inr v =>
          match stringifyValue runtime v with
          | Some e => Some e
          | None => stringifyMessages rest
          end
      | inl _ => stringifyMessages rest
      end
  end.

(** *** Pieces of [ai] *)

(** [{ ...base, k1: v1, ..., kn: vn }]: later keys win. *)
Definition objectLiteral (base : gmap string (@Value JSValue Obj))
    (fields : list (string * @Value JSValue Obj)) : gmap string Value :=
  List.fold_left (fun o kv => <[fst kv := snd kv]> o) fields base.

(** [omit(config, ['schema'])], then read as an object of values. *)
Definition omitSchema (config : VercelConfig)
  : gmap string (@Value JSValue Obj) :=
  VData <$> delete "schema" config.

(** [const { streamText } = { ...DEFAULT_AI_SDK_PROVIDER, ...(aiSdkProvider || {}) }];
    [None] is [undefined]. *)
Definition resolveStreamText (imports : @Imports JSValue Obj)
    (aiSdkProvider : option (@PartialAISDKProvider JSValue Obj))
  : option StreamTextFn :=
  match aiSdkProvider with
  | None | Some NoStreamText => Some (originalStreamText imports)
  | Some StreamTextUndefined => None
  | Some (StreamTextOverride f) => Some f
  end.

(** [streamText(args)]; calling [undefined] is a [TypeError]. *)
Definition callStreamText (streamText : option (@StreamTextFn JSValue Obj))
    (args : gmap string Value) : Run StreamTextResult :=
  match streamText with
  | Some f => call (EvStreamText args) (f args)
  | None => throw (ErrorValue "streamText is not a function")
  end.

(** [schema && !!output && output !== 'no-schema'], as a truth value. *)
Definition useSchema (schema : option Obj) (output : option ObjectOutput) : bool :=
  match schema with
  | Some _ =>
      match output with
      | Some o => match o with OutNoSchema => false | _ => true end
      | None => false
      end
  | None => false
  end.

(** [useSchema ? 'object' : 'text']. *)
Definition resultType (schema : option Obj) (output : option ObjectOutput) : string :=
  if useSchema schema output then "object" else "text".

(** [rule.rules.map((rule) => `- ${rule.ruleMessage}`).join('\n')]. *)
Definition violationLines (rs : list AppliedRule) : string :=
  JS.join JS.nl (List.map (fun rule => "- " +:+ ar_ruleMessage rule) rs).

(** ['There are rule violations:\n' + rule.rules.map(...).join('\n')]. *)
Definition violationsMessage (rs : list AppliedRule) : string :=
  "There are rule violations:" +:+ JS.nl +:+ violationLines rs.

(** The object literal handed to [streamText]. *)
Definition streamTextArgs (input : @AIInput JSValue Obj)
    (rule : @AppliedRules JSValue) (languageModel : Obj)
    (toolsValue : option Obj) : gmap string Value :=
  let config := rules_config rule in
  objectLiteral (omitSchema config)
    [ ("model", VObj languageModel);
      ("prompt", optValue VString (prompt input));
      ("messages", VMessages (rules_messages rule));
      ("tools", optValue VObj toolsValue);
      ("abortSignal", optValue VObj (abortSignal input));
      ("providerOptions", getField config "providerOptions");
      ("experimental_telemetry", VTelemetry false);
      ("experimental_transform", VSmoothStream);
      ("experimental_output",
        match schema input with
        | Some s => if useSchema (schema input) (output input)
                    then VOutputObject s else VUndefined
        | None => VUndefined
        end) ].

(** The object literal inside the final [Result.ok]. *)
Definition successValue (input : @AIInput JSValue Obj)
    (result : @StreamTextResult Obj) : gmap string (@Value JSValue Obj) :=
  objectLiteral ∅
    [ ("type", VString (resultType (schema input) (output input)));
      ("providerName", VString (pk_provider (provider input)));
      ("fullStream", VObj (sr_fullStream result));
      ("text", VObj (sr_text result));
      ("reasoning", VObj (sr_reasoning result));
      ("usage", VObj (sr_usage result));
      ("toolCalls", VObj (sr_toolCalls result));
      ("providerMetadata", VObj (sr_providerMetadata result));
      ("sources", VObj (sr_sources result));
      ("finishReason", VObj (sr_finishReason result));
      ("response", VObj (sr_response result)) ].

(** First diagnostic block, before the rules run.  The argument of a
    [console.log] is made before the line is written. *)
Definition debugRequest (input : @AIInput JSValue Obj) : Run (Obj := Obj) unit :=
  let* _ := consoleLog [LString (JS.nl +:+ "=== AI Request Debug Info ===")] in
  let* _ := consoleLog [LString "Provider:";
                        LString (pk_provider (provider input))] in
  let* _ := consoleLog [LString "Model:"; LField (getField (config input) "model")] in
  let* _ := consoleLog [LString "Messages count:";
                        LNumber (List.length (messages input))] in
  let snapshot :=
    List.map (snapshotMessage Diagnostics.snapshotOriginal) (messages input) in
  let* _ := jsonStringify (stringifyMessages snapshot) in
  let* _ := consoleLog [LString "Messages:"; LMessages snapshot] in
  let* _ := jsonStringify (stringifyConfig runtime (config input)) in
  consoleLog [LString "Config:"; LConfig (config input)].

(** Second diagnostic block, before dispatch. *)
Definition debugConverted (input : @AIInput JSValue Obj)
    (rule : @AppliedRules JSValue) : Run (Obj := Obj) unit :=
  let* _ := consoleLog
              [LString (JS.nl +:+ "=== Converted Messages for Provider ===")] in
  let snapshot :=
    List.map (snapshotMessage Diagnostics.snapshotConverted)
      (rules_messages rule) in
  let* _ := jsonStringify (stringifyMessages snapshot) in
  let* _ := consoleLog [LString "Messages after rules:"; LMessages snapshot] in
  consoleLog [LString (JS.nl +:+ "=== Sending to Provider:");
              LString (pk_provider (provider input));
              LString "Model:";
              LField (getField (rules_config rule) "model");
              LString "==="].

(** Third diagnostic block: observers on two of the result's promises. *)
Definition debugResponse (result : @StreamTextResult Obj)
  : Run (JSValue := JSValue) unit :=
  let* _ := thenLog (sr_providerMetadata result)
              (JS.nl +:+ "=== Provider Response Metadata ===") in
  thenLog (sr_finishReason result) (JS.nl +:+ "=== Finish Reason ===").

Definition applyAllRulesArgs (input : @AIInput JSValue Obj) : ApplyAllRulesArgs :=
  {| aar_providerType := pk_provider (provider input);
     aar_messages := messages input;
     aar_config := config input |}.

Definition createProviderArgs (input : @AIInput JSValue Obj)
    (rule : @AppliedRules JSValue) : CreateProviderArgs :=
  {| cp_context := context input;
     cp_messages := rules_messages rule;
     cp_provider := provider input;
     cp_apiKey := pk_token (provider input);
     cp_url := pk_url (provider input);
     cp_config := rules_config rule |}.

Definition getLanguageModelArgs (input : @AIInput JSValue Obj)
    (rule : @AppliedRules JSValue) (llmProvider : Obj) : GetLanguageModelArgs :=
  {| glm_llmProvider := llmProvider;
     glm_provider := provider input;
     glm_config := rules_config rule;
     glm_model := rules_config rule !! "model" |}.

Definition AIResult : Type :=
  TypedResult (gmap string (@Value JSValue Obj)) ChainError.

(** The body of the [try] block of [ai]. *)
Definition aiTry (imports : @Imports JSValue Obj)
    (streamText : option (@StreamTextFn JSValue Obj)) (debugAI : bool)
    (input : @AIInput JSValue Obj) : Run AIResult :=
  let* _ := when debugAI (debugRequest input) in
  let* rule := call (EvApplyAllRules (applyAllRulesArgs input))
                 (applyAllRules imports (applyAllRulesArgs input)) in
  if Nat.ltb 0 (List.length (rules rule)) then
    ret (ResultError {| code := AIRunError;
                        message := violationsMessage (rules rule) |})
  else
    let tools := rules_config rule !! "tools" in
    let* providerAdapterResult :=
      call (EvCreateProvider (createProviderArgs input rule))
        (createProvider imports (createProviderArgs input rule)) in
    match providerAdapterResult with
    | ResultError e => ret (ResultError e)
    | ResultOk llmProvider =>
        let* languageModel :=
          call (EvGetLanguageModel (getLanguageModelArgs input rule llmProvider))
            (getLanguageModel imports (getLanguageModelArgs input rule llmProvider)) in
        let* toolsResult := call (EvBuildTools tools) (buildTools imports tools) in
        match toolsResult with
        | ResultError e => ret (ResultError e)
        | ResultOk toolsValue =>
            let* _ := when debugAI (debugConverted input rule) in
            let* result :=
              callStreamText streamText
                (streamTextArgs input rule languageModel toolsValue) in
            let* _ := when debugAI (debugResponse result) in
            ret (ResultOk (successValue input result))
        end
    end.

(** The [catch] clause of [ai]. *)
Definition aiCatch (processEnv : gmap string string) (debugAI : bool)
    (e : @Thrown JSValue) : Run AIResult :=
  let* _ := when debugAI
              (let* _ := consoleLog
                           [LString (JS.nl +:+ "=== AI Request Error ===")] in
               consoleLog [LString "Error:"; LThrown e]) in
  handleAICallAPIError processEnv e.

(** [ai(input)] of index.ts, run with the given imports and process
    environment. *)
Definition ai (imports : @Imports JSValue Obj) (processEnv : gmap string string)
    (input : @AIInput JSValue Obj) : Run AIResult :=
  let streamText := resolveStreamText imports (aiSdkProvider input) in
  let debugAI := debugEnabled processEnv in
  tryCatch (aiTry imports streamText debugAI input) (aiCatch processEnv debugAI).

End Orchestrator.

(** ** The control-flow paths of [ai]

    [Path imports input evs r]: with these imports and this input there is a
    way through the steps of the [try] block of [ai] that makes exactly the
    collaborator calls [evs], in that order, and ends in [r], a thrown value
    or a returned result.  [ai_path] shows that a run of [ai] follows one of
    them unless a diagnostic block threw on the way. *)

Section Paths.

Context {JSValue Obj : Type}.
Variable runtime : @Runtime JSValue.
Variable imports : @Imports JSValue Obj.
Variable input : @AIInput JSValue Obj.

Local Abbreviation evRules := (EvApplyAllRules (applyAllRulesArgs input)).
Local Abbreviation evAdapter rule :=
  (EvCreateProvider (createProviderArgs input rule)).
Local Abbreviation evModel rule llm :=
  (EvGetLanguageModel (getLanguageModelArgs input rule llm)).
Local Abbreviation evTools rule := (EvBuildTools (rules_config rule !! "tools")).
Local Abbreviation evDispatch rule lm tv :=
  (EvStreamText (streamTextArgs input rule lm tv)).

(** The run got past validation with no violation. *)
Definition validated (rule : @AppliedRules JSValue) : Prop :=
  applyAllRules imports (applyAllRulesArgs input) = inr rule ∧ rules rule = [].

(** ... and past adapter construction. *)
Definition adapted (rule : @AppliedRules JSValue) (llm : Obj) : Prop :=
  validated rule ∧
  createProvider imports (createProviderArgs input rule) = inr (ResultOk llm).

(** ... and past model resolution. *)
Definition resolved (rule : @AppliedRules JSValue) (llm lm : Obj) : Prop :=
  adapted rule llm ∧
  getLanguageModel imports (getLanguageModelArgs input rule llm) = inr lm.

(** ... and past tool building. *)
Definition equipped (rule : @AppliedRules JSValue) (llm lm : Obj)
    (tv : option Obj) : Prop :=
  resolved rule llm lm ∧
  buildTools imports (rules_config rule !! "tools") = inr (ResultOk tv).

Inductive Path
  : list (@Event JSValue Obj) -> @Thrown JSValue + @AIResult JSValue Obj -> Prop :=
| PathRulesThrow e :
    applyAllRules imports (applyAllRulesArgs input) = inl e ->
    Path [evRules] (inl e)
| PathViolations rule :
    applyAllRules imports (applyAllRulesArgs input) = inr rule ->
    rules rule ≠ [] ->
    Path [evRules]
      (inr (ResultError {| code := AIRunError;
                           message := violationsMessage (rules rule) |}))
| PathAdapterThrow rule e :
    validated rule ->
    createProvider imports (createProviderArgs input rule) = inl e ->
    Path [evRules; evAdapter rule] (inl e)
| PathAdapterError rule err :
    validated rule ->
    createProvider imports (createProviderArgs input rule)
      = inr (ResultError err) ->
    Path [evRules; evAdapter rule] (inr (ResultError err))
| PathModelThrow rule llm e :
    adapted rule llm ->
    getLanguageModel imports (getLanguageModelArgs input rule llm) = inl e ->
    Path [evRules; evAdapter rule; evModel rule llm] (inl e)
| PathToolsThrow rule llm lm e :
    resolved rule llm lm ->
    buildTools imports (rules_config rule !! "tools") = inl e ->
    Path [evRules; evAdapter rule; evModel rule llm; evTools rule] (inl e)
| PathToolsError rule llm lm err :
    resolved rule llm lm ->
    buildTools imports (rules_config rule !! "tools") = inr (ResultError err) ->
    Path [evRules; evAdapter rule; evModel rule llm; evTools rule]
      (inr (ResultError err))
| PathNoTransport rule llm lm tv :
    equipped rule llm lm tv ->
    resolveStreamText imports (aiSdkProvider input) = None ->
    Path [evRules; evAdapter rule; evModel rule llm; evTools rule]
      (inl (ErrorValue "streamText is not a function"))
| PathDispatchThrow rule llm lm tv streamText e :
    equipped rule llm lm tv ->
    resolveStreamText imports (aiSdkProvider input) = Some streamText ->
    streamText (streamTextArgs input rule lm tv) = inl e ->
    Path [evRules; evAdapter rule; evModel rule llm; evTools rule;
          evDispatch rule lm tv]
      (inl e)
| PathSuccess rule llm lm tv streamText result :
    equipped rule llm lm tv ->
    resolveStreamText imports (aiSdkProvider input) = Some streamText ->
    streamText (streamTextArgs input rule lm tv) = inr result ->
    Path [evRules; evAdapter rule; evModel rule llm; evTools rule;
          evDispatch rule lm tv]
      (inr (ResultOk (successValue input result))).

(** [raises debugAI t e]: on the run whose events are [t], one of the five
    orchestration steps threw [e].  A collaborator was called with arguments
    on which it throws [e]; or the dispatch was reached, after the tools
    were built and the second diagnostic block had passed, with a
    [streamText] that is [undefined]. *)
Inductive raises (debugAI : bool) (t : list (@Event JSValue Obj))
  : @Thrown JSValue -> Prop :=
| RaisedByValidation args e :
    In (EvApplyAllRules args) t ->
    applyAllRules imports args = inl e -> raises debugAI t e
| RaisedByAdapter args e :
    In (EvCreateProvider args) t ->
    createProvider imports args = inl e -> raises debugAI t e
| RaisedByModel args e :
    In (EvGetLanguageModel args) t ->
    getLanguageModel imports args = inl e -> raises debugAI t e
| RaisedByTools tools e :
    In (EvBuildTools tools) t ->
    buildTools imports tools = inl e -> raises debugAI t e
| RaisedByDispatch args streamText e :
    In (EvStreamText args) t ->
    resolveStreamText imports (aiSdkProvider input) = Some streamText ->
    streamText args = inl e -> raises debugAI t e
| RaisedByCallingUndefined rule tv :
    In (evTools rule) t ->
    applyAllRules imports (applyAllRulesArgs input) = inr rule ->
    buildTools imports (rules_config rule !! "tools") = inr (ResultOk tv) ->
    outcome (when debugAI (debugConverted runtime input rule)) = inr tt ->
    resolveStreamText imports (aiSdkProvider input) = None ->
    raises debugAI t (ErrorValue "streamText is not a function").

End Paths.

(** ** Concrete runs

    A small world to run [ai] in: data is a string and converts to itself,
    objects are numbered. *)

Module Demo.

(** Strings convert to themselves and serialise. *)
Definition runtime : @Runtime string :=
  {| toString := inr;
     stringifyValue := fun _ => None;
     stringifyConfig := fun _ => None |}.

Definition credential : ProviderApiKey :=
  {| pk_provider := "openai"; pk_token := "sk-test"; pk_url := None |}.

Definition systemMessage : @Message string :=
  {| msg_role := "system"; msg_content := ContentString "You are terse." |}.

Definition userMessage : @Message string :=
  {| msg_role := "user";
     msg_content :=
       ContentArray
         [ {| part_type := "text"; part_text := Some "Describe this picture";
              part_image := DUndefined; part_file := DUndefined;
              part_data := DUndefined; part_mimeType := None |} ] |}.

(** [{ model: 'gpt-4o', temperature: 0.2, schema: {...} }], entries as text. *)
Definition vercelConfig : gmap string string :=
  <["model" := "gpt-4o"]> (<["temperature" := "0.2"]> (<["schema" := "{}"]> ∅)).

Definition stream : @StreamTextResult nat :=
  {| sr_fullStream := 10; sr_text := 11; sr_reasoning := 12; sr_usage := 13;
     sr_toolCalls := 14; sr_providerMetadata := 15; sr_sources := 16;
     sr_finishReason := 17; sr_response := 18 |}.

(** Rules that accept everything and change nothing. *)
Definition lenientRules (a : @ApplyAllRulesArgs string)
  : @Thrown string + @AppliedRules string :=
  inr {| rules := []; rules_messages := aar_messages a;
         rules_config := aar_config a |}.

(** Rules that report two violations. *)
Definition strictRules (a : @ApplyAllRulesArgs string)
  : @Thrown string + @AppliedRules string :=
  inr {| rules :=
           [ {| ar_rule := "vertex_google";
                ar_ruleMessage := "System messages must come first" |};
             {| ar_rule := "anthropic";
                ar_ruleMessage := "Only one image is allowed" |} ];
         rules_messages := aar_messages a;
         rules_config := aar_config a |}.

(** Every collaborator succeeds. *)
Definition imports : @Imports string nat :=
  {| applyAllRules := lenientRules;
     createProvider := fun _ => inr (ResultOk 1);
     getLanguageModel := fun _ => inr 2;
     buildTools := fun _ => inr (ResultOk None);
     originalStreamText := fun _ => inr stream |}.

(** The Rule Engine finds violations. *)
Definition strictImports : @Imports string nat :=
  {| applyAllRules := strictRules;
     createProvider := createProvider imports;
     getLanguageModel := getLanguageModel imports;
     buildTools := buildTools imports;
     originalStreamText := originalStreamText imports |}.

Definition toolError : ChainError :=
  {| code := AIRunError; message := "Tool parameters must be an object" |}.

(** The Tool Builder rejects the tool schemas. *)
Definition brokenToolsImports : @Imports string nat :=
  {| applyAllRules := lenientRules;
     createProvider := createProvider imports;
     getLanguageModel := getLanguageModel imports;
     buildTools := fun _ => inr (ResultError toolError);
     originalStreamText := originalStreamText imports |}.

Definition rateLimited : @Thrown string :=
  APICallError "Too Many Requests" (Some "rate limit exceeded")
    "https://api.openai.com/v1/chat/completions" "{}".

(** The transport throws at dispatch. *)
Definition failingTransportImports : @Imports string nat :=
  {| applyAllRules := lenientRules;
     createProvider := createProvider imports;
     getLanguageModel := getLanguageModel imports;
     buildTools := buildTools imports;
     originalStreamText := fun _ => inl rateLimited |}.

Definition input : @AIInput string nat :=
  {| context := 0;
     provider := credential;
     prompt := None;
     messages := [systemMessage; userMessage];
     config := vercelConfig;
     schema := Some 7;
     output := Some OutObject;
     aiSdkProvider := None;
     abortSignal := None |}.

(** [process.env] with and without the diagnostic flag. *)
Definition debugOn : gmap string string := <["DEBUG_AI" := "true"]> ∅.
Definition debugOff : gmap string string := ∅.

(** An image part whose payload is the given value. *)
Definition imagePart (d : DataValue) : ContentPart :=
  {| part_type := "image"; part_text := None; part_image := d;
     part_file := DUndefined; part_data := DUndefined; part_mimeType := None |}.

(** A string of [n] letters. *)
Fixpoint letters (n : nat) : string :=
  match n with
  | O => ""
  | S k => String "a" (letters k)
  end.

End Demo.

(** ** Swapping the transport

    [imports] with another default transport: what a test does when it
    replaces the [streamText] export of the SDK. *)

Definition replaceTransport {JSValue Obj : Type} (imports : @Imports JSValue Obj)
    (streamText : @StreamTextFn JSValue Obj) : @Imports JSValue Obj :=
  {| applyAllRules := applyAllRules imports;
     createProvider := createProvider imports;
     getLanguageModel := getLanguageModel imports;
     buildTools := buildTools imports;
     originalStreamText := streamText |}.

(** ** Runs without console output *)

(** Every event of the run is a collaborator call. *)
Definition quiet {JSValue Obj A : Type}
    (m : Run (JSValue := JSValue) (Obj := Obj) A) : Prop :=
  trace m = callsOf m.

(** ** Reading a snapshot *)

(** The [type] entry of a part's snapshot. *)
Definition snapshotType (s : ContentSnapshot) : string :=
  match s with
  | SnapText type _ | SnapImage type _ | SnapFile type _ | SnapBare type => type
  end.

(** ** The sign-up action: the handler of [setupAction]

    apps/web/src/actions/user/setupAction.ts.  The handler runs after the
    form was validated; [setupService], [setSession], [isLatitudeUrl] and
    the dashboard route come from other modules.  [result.unwrap()] yields
    the value of a success and throws the error of a failure.  [redirect]
    ends the handler: what the handler yields is a thrown value or a
    redirection. *)

Module Setup.

Section Handler.

Context {Workspace Err : Type}.

(** The validated form. *)
Record SetupInput : Type := mkSetupInput {
  returnTo : option string;
  name : string;
  email : string;
  companyName : string;
}.

(** The user [setupService] created, as far as the handler reads it. *)
Record User : Type := mkUser {
  user_id : string;
  user_email : string;
  user_name : string;
}.

(** [{ workspace, user }], the value [result.unwrap()] yields. *)
Record Created : Type := mkCreated {
  workspace : Workspace;
  user : User;
}.

(** [{ user: { id, email }, workspace }]. *)
Record SessionData : Type := mkSessionData {
  session_user_id : string;
  session_user_email : string;
  session_workspace : Workspace;
}.

Inductive SetupThrown : Type :=
| ForbiddenError (message : string)
| Rejected (e : Err).

Inductive SetupOutcome : Type :=
| Threw (e : SetupThrown)
| Redirected (url : string).

Inductive SetupEvent : Type :=
| EvSetupService (input : SetupInput)
| EvSetSession (sessionData : SessionData)
| EvRedirect (url : string).

(** What the handler imports. *)
Record Services : Type := mkServices {
  disableEmail : bool;
  setupService : SetupInput -> Err + TypedResult Created Err;
  setSession : SessionData -> Err + unit;
  isLatitudeUrl : string -> bool;
  dashboardRoot : string;
}.

(** [!!s] for a string: only the empty string is falsy. *)
Definition truthyString (s : string) : bool :=
  negb (Nat.eqb (String.length s) 0).

(** [!input.returnTo || !isLatitudeUrl(input.returnTo)] decides between
    the dashboard and [input.returnTo]. *)
Definition redirectTarget (services : Services) (input : SetupInput) : string :=
  match returnTo input with
  | None => dashboardRoot services
  | Some url =>
      if negb (truthyString url) || negb (isLatitudeUrl services url)
      then dashboardRoot services
      else url
  end.

Definition sessionFor (created : Created) : SessionData :=
  {| session_user_id := user_id (user created);
     session_user_email := user_email (user created);
     session_workspace := workspace created |}.

(** The function given to [.handler(...)]. *)
Definition handler (services : Services) (input : SetupInput)
  : list SetupEvent * SetupOutcome :=
  if disableEmail services then
    ([], Threw (ForbiddenError
                  "Email signup is disabled. Please use Google authentication."))
  else
    match setupService services input with
    | inl e => ([EvSetupService input], Threw (Rejected e))
    | inr (ResultError e) => ([EvSetupService input], Threw (Rejected e))
    | inr (ResultOk created) =>
        let sessionData := sessionFor created in
        match setSession services sessionData with
        | inl e =>
            ([EvSetupService input; EvSetSession sessionData], Threw (Rejected e))
        | inr _ =>
            let target := redirectTarget services input in
            ([EvSetupService input; EvSetSession sessionData; EvRedirect target],
             Redirected target)
        end
    end.

End Handler.

End Setup.

(** ** The e-mail refinement of the sign-up form

    The second [.refine] on [email] in setupAction.ts tests the address
    against two regular expressions, both anchored at either end.  [Regex]
    is the fragment of the regular-expression language they are written in;
    [matches r s] is [s.match(/^r$/) !== null]. *)

Module Regex.

Inductive regex : Type :=
| Void
| Eps
| Class (p : ascii -> bool)
| Cat (r1 r2 : regex)
| Alt (r1 r2 : regex)
| Star (r : regex).

(** [r+]. *)
Definition Plus (r : regex) : regex := Cat r (Star r).

(** Does [r] match the empty string? *)
Fixpoint nullable (r : regex) : bool :=
  match r with
  | Void => false
  | Eps => true
  | Class _ => false
  | Cat r1 r2 => nullable r1 && nullable r2
  | Alt r1 r2 => nullable r1 || nullable r2
  | Star _ => true
  end.

(** What is left of [r] to match once [c] has been read. *)
Fixpoint deriv (c : ascii) (r : regex) : regex :=
  match r with
  | Void => Void
  | Eps => Void
  | Class p => if p c then Eps else Void
  | Cat r1 r2 =>
      if nullable r1
      then Alt (Cat (deriv c r1) r2) (deriv c r2)
      else Cat (deriv c r1) r2
  | Alt r1 r2 => Alt (deriv c r1) (deriv c r2)
  | Star r1 => Cat (deriv c r1) (Star r1)
  end.

Fixpoint matches (r : regex) (s : string) : bool :=
  match s with
  | EmptyString => nullable r
  | String c rest => matches (deriv c r) rest
  end.

(** The strings [r] matches, from end to end. *)
Inductive Matches : regex -> string -> Prop :=
| MEps : Matches Eps ""
| MClass p c : p c = true -> Matches (Class p) (String c "")
| MCat r1 r2 s1 s2 :
    Matches r1 s1 -> Matches r2 s2 -> Matches (Cat r1 r2) (s1 +:+ s2)
| MAltL r1 r2 s : Matches r1 s -> Matches (Alt r1 r2) s
| MAltR r1 r2 s : Matches r2 s -> Matches (Alt r1 r2) s
| MStarNil r : Matches (Star r) ""
| MStarApp r s1 s2 :
    Matches r s1 -> Matches (Star r) s2 -> Matches (Star r) (s1 +:+ s2).

(** [c] lies in the range [lo-hi]. *)
Definition between (lo hi c : ascii) : bool :=
  Nat.leb (nat_of_ascii lo) (nat_of_ascii c)
  && Nat.leb (nat_of_ascii c) (nat_of_ascii hi).

Definition exactly (x c : ascii) : bool := Ascii.eqb x c.

(** [c] is one of the characters of [chars]. *)
Fixpoint oneOf (chars : string) (c : ascii) : bool :=
  match chars with
  | EmptyString => false
  | String x rest => Ascii.eqb c x || oneOf rest c
  end.

(** Every character of [s] satisfies [p]. *)
Fixpoint allChars (p : ascii -> bool) (s : string) : bool :=
  match s with
  | EmptyString => true
  | String c rest => p c && allChars p rest
  end.

(** Some character of [s] satisfies [p]. *)
Fixpoint anyChar (p : ascii -> bool) (s : string) : bool :=
  match s with
  | EmptyString => false
  | String c rest => p c || anyChar p rest
  end.

End Regex.

Module Email.

Import Regex.

(** [[A-Z0-9_!#$%&'*+/=?`{|}~^.-]]. *)
Definition localClass (c : ascii) : bool :=
  between "A"%char "Z"%char c
  || between "0"%char "9"%char c
  || oneOf "_!#$%&'*+/=?`{|}~^.-" c.

(** [[A-Z0-9.-]]. *)
Definition domainClass (c : ascii) : bool :=
  between "A"%char "Z"%char c || between "0"%char "9"%char c || oneOf ".-" c.

(** [[A-Z0-9.-]] under the [i] flag. *)
Definition domainClassIgnoringCase (c : ascii) : bool :=
  between "A"%char "Z"%char c
  || between "a"%char "z"%char c
  || between "0"%char "9"%char c
  || oneOf ".-" c.

(** [\d]. *)
Definition digit (c : ascii) : bool := between "0"%char "9"%char c.

(** [[^+]]. *)
Definition notPlus (c : ascii) : bool := negb (exactly "+"%char c).

(** [/^[A-Z0-9_!#$%&'*+/=?`{|}~^.-]+@[A-Z0-9.-]+$/]. *)
Definition upperCaseAddress : regex :=
  Cat (Plus (Class localClass))
    (Cat (Class (exactly "@"%char)) (Plus (Class domainClass))).

(** [/^[^+]+\+\d+@[A-Z0-9.-]+$/i]. *)
Definition numberedSubaddress : regex :=
  Cat (Plus (Class notPlus))
    (Cat (Class (exactly "+"%char))
       (Cat (Plus (Class digit))
          (Cat (Class (exactly "@"%char)) (Plus (Class domainClassIgnoringCase))))).

(** The predicate given to [.refine]: the address passes when neither
    expression matches it. *)
Definition refinement (email : string) : bool :=
  negb (matches upperCaseAddress email)
  && negb (matches numberedSubaddress email).

Definition lowerCase (c : ascii) : bool := between "a"%char "z"%char c.

End Email.

(** ** More concrete runs *)

Module Scenario.

Definition configError : ChainError :=
  {| code := AIProviderConfigError;
     message := "Provider vertex requires a project id" |}.

(** The Provider Adapter Factory rejects the credential. *)
Definition badCredentialImports : @Imports string nat :=
  {| applyAllRules := Demo.lenientRules;
     createProvider := fun _ => inr (ResultError configError);
     getLanguageModel := getLanguageModel Demo.imports;
     buildTools := buildTools Demo.imports;
     originalStreamText := originalStreamText Demo.imports |}.

(** The Rule Engine itself throws. *)
Definition throwingRulesImports : @Imports string nat :=
  {| applyAllRules := fun _ => inl (ErrorValue "rules exploded");
     createProvider := createProvider Demo.imports;
     getLanguageModel := getLanguageModel Demo.imports;
     buildTools := buildTools Demo.imports;
     originalStreamText := originalStreamText Demo.imports |}.

(** [Demo.input] with another [aiSdkProvider]. *)
Definition withProvider (p : option (@PartialAISDKProvider string nat))
  : @AIInput string nat :=
  {| context := context Demo.input;
     provider := provider Demo.input;
     prompt := prompt Demo.input;
     messages := messages Demo.input;
     config := config Demo.input;
     schema := schema Demo.input;
     output := output Demo.input;
     aiSdkProvider := p;
     abortSignal := abortSignal Demo.input |}.

Definition otherStream : @StreamTextResult nat :=
  {| sr_fullStream := 20; sr_text := 21; sr_reasoning := 22; sr_usage := 23;
     sr_toolCalls := 24; sr_providerMetadata := 25; sr_sources := 26;
     sr_finishReason := 27; sr_response := 28 |}.

(** A test double for the transport. *)
Definition fakeStreamText : @StreamTextFn string nat := fun _ => inr otherStream.

(** [process.env] with the flag set, but not to ['true']. *)
Definition debugAlmostOn : gmap string string := <["DEBUG_AI" := "1"]> ∅.

(** What the lenient rules return for [Demo.input]. *)
Definition accepted : @AppliedRules string :=
  {| rules := []; rules_messages := messages Demo.input;
     rules_config := Demo.vercelConfig |}.

(** A file part as the rules leave it: the payload under [data]. *)
Definition convertedFile : ContentPart :=
  {| part_type := "file"; part_text := None; part_image := DUndefined;
     part_file := DUndefined; part_data := DString "JVBERi0xLjQK";
     part_mimeType := Some "application/pdf" |}.

(** A file part as the caller wrote it: the payload under [file]. *)
Definition originalFile : ContentPart :=
  {| part_type := "file"; part_text := None; part_image := DUndefined;
     part_file := DString "JVBERi0xLjQK"; part_data := DUndefined;
     part_mimeType := Some "application/pdf" |}.

(** A sign-up that names a page to return to. *)
Definition signup : Setup.SetupInput :=
  {| Setup.returnTo := Some "https://app.latitude.so/projects/7";
     Setup.name := "Jane"; Setup.email := "jane@example.com";
     Setup.companyName := "Acme" |}.

Definition jane : Setup.User :=
  {| Setup.user_id := "u1"; Setup.user_email := "jane@example.com";
     Setup.user_name := "Jane" |}.

(** Services that create the account and accept only [app.latitude.so]. *)
Definition services : @Setup.Services nat string :=
  {| Setup.disableEmail := false;
     Setup.setupService := fun _ =>
       inr (ResultOk {| Setup.workspace := 3; Setup.user := jane |});
     Setup.setSession := fun _ => inr tt;
     Setup.isLatitudeUrl := String.prefix "https://app.latitude.so/";
     Setup.dashboardRoot := "/dashboard" |}.

(** The same with e-mail sign-up switched off. *)
Definition closedServices : @Setup.Services nat string :=
  {| Setup.disableEmail := true;
     Setup.setupService := Setup.setupService services;
     Setup.setSession := Setup.setSession services;
     Setup.isLatitudeUrl := Setup.isLatitudeUrl services;
     Setup.dashboardRoot := Setup.dashboardRoot services |}.

(** The same with a service that refuses the sign-up. *)
Definition refusingServices : @Setup.Services nat string :=
  {| Setup.disableEmail := false;
     Setup.setupService := fun _ => inr (ResultError "workspace name taken");
     Setup.setSession := Setup.setSession services;
     Setup.isLatitudeUrl := Setup.isLatitudeUrl services;
     Setup.dashboardRoot := Setup.dashboardRoot services |}.

End Scenario.

(** ** Data that does not convert

    A world with the two kinds of value the conversions of the runtime throw
    on: a Symbol has no string form, a BigInt has no JSON text. *)

Module Edge.

Inductive Datum : Type :=
| Text (s : string)
| BigInt (digits : string)
| Symbol (description : string).

Definition isBigInt (v : Datum) : bool :=
  match v with BigInt _ => true | _ => false end.

(** The [TypeError] of a template literal given a Symbol. *)
Definition noStringForm : @Thrown Datum :=
  ErrorValue "Cannot convert a Symbol value to a string".

(** The [TypeError] of [JSON.stringify] given a BigInt. *)
Definition notSerialisable : @Thrown Datum :=
  ErrorValue "Do not know how to serialize a BigInt".

Definition conversions : @Runtime Datum :=
  {| toString := fun v =>
       match v with
       | Text s => inr s
       | BigInt digits => inr digits
       | Symbol _ => inl noStringForm
       end;
     stringifyValue := fun v =>
       if isBigInt v then Some notSerialisable else None;
     stringifyConfig := fun c =>
       if existsb (fun kv => isBigInt (snd kv)) (map_to_list c)
       then Some notSerialisable else None |}.

Definition question : @Message Datum :=
  {| msg_role := "user"; msg_content := ContentString "Name three rivers." |}.

(** [{ model: 'gpt-4o', seed: 7n }]. *)
Definition bigintConfig : gmap string Datum :=
  <["model" := Text "gpt-4o"]> (<["seed" := BigInt "7"]> ∅).

Definition plainConfig : gmap string Datum := <["model" := Text "gpt-4o"]> ∅.

Definition acceptingRules (a : @ApplyAllRulesArgs Datum)
  : @Thrown Datum + @AppliedRules Datum :=
  inr {| rules := []; rules_messages := aar_messages a;
         rules_config := aar_config a |}.

(** Every collaborator succeeds. *)
Definition collaborators : @Imports Datum nat :=
  {| applyAllRules := acceptingRules;
     createProvider := fun _ => inr (ResultOk 1);
     getLanguageModel := fun _ => inr 2;
     buildTools := fun _ => inr (ResultOk None);
     originalStreamText := fun _ => inr Demo.stream |}.

(** A transport that throws a Symbol: [throw Symbol('aborted')]. *)
Definition symbolTransport : @StreamTextFn Datum nat :=
  fun _ => inl (OtherValue (Symbol "aborted")).

Definition inputWith (config : gmap string Datum)
    (aiSdkProvider : option (@PartialAISDKProvider Datum nat))
  : @AIInput Datum nat :=
  {| context := 0;
     provider := Demo.credential;
     prompt := None;
     messages := [question];
     config := config;
     schema := None;
     output := None;
     aiSdkProvider := aiSdkProvider;
     abortSignal := None |}.

(** A request whose configuration holds a BigInt. *)
Definition bigintInput : @AIInput Datum nat := inputWith bigintConfig None.

(** A request that brings the Symbol-throwing transport. *)
Definition symbolInput : @AIInput Datum nat :=
  inputWith plainConfig (Some (StreamTextOverride symbolTransport)).

End Edge.


(** ** Reasoning about runs *)

Section RunLemmas.

Context {JSValue Obj : Type}.

Local Abbreviation Run' := (Run (JSValue := JSValue) (Obj := Obj)).
Local Open Scope run_scope.

Lemma calls_app (t1 t2 : list (@Event JSValue Obj)) :
  calls (t1 ++ t2) = calls t1 ++ calls t2.
Proof. unfold calls. apply List.filter_app. Qed.

Lemma outcome_bind {A B} (m : Run' A) (k : A -> Run' B) :
  outcome (bind m k)
  = match outcome m with inl e => inl e | inr a => outcome (k a) end.
Proof. destruct m as [t [e|a]]; reflexivity. Qed.

Lemma callsOf_bind {A B} (m : Run' A) (k : A -> Run' B) :
  callsOf (bind m k)
  = callsOf m ++ match outcome m with inl _ => [] | inr a => callsOf (k a) end.
Proof.
  destruct m as [t [e|a]]; unfold callsOf; simpl.
  - by rewrite app_nil_r.
  - apply calls_app.
Qed.

Lemma outcome_tryCatch {A} (m : Run' A) (h : Thrown -> Run' A) :
  outcome (tryCatch m h)
  = match outcome m with inl e => outcome (h e) | inr a => inr a end.
Proof. destruct m as [t [e|a]]; reflexivity. Qed.

Lemma callsOf_tryCatch {A} (m : Run' A) (h : Thrown -> Run' A) :
  callsOf (tryCatch m h)
  = callsOf m ++ match outcome m with inl e => callsOf (h e) | inr _ => [] end.
Proof.
  destruct m as [t [e|a]]; unfold callsOf; simpl.
  - apply calls_app.
  - by rewrite app_nil_r.
Qed.

Lemma outcome_bind_silent {B} (m : Run' unit) (k : unit -> Run' B) :
  silent m -> outcome (bind m k) = outcome (k tt).
Proof. intros [Ho _]. by rewrite outcome_bind, Ho. Qed.

Lemma callsOf_bind_silent {B} (m : Run' unit) (k : unit -> Run' B) :
  silent m -> callsOf (bind m k) = callsOf (k tt).
Proof. intros [Ho Hc]. by rewrite callsOf_bind, Ho, Hc. Qed.

Lemma silent_ret : silent (ret tt : Run' unit).
Proof. by split. Qed.

Lemma silent_consoleLog (args : list (@LogArg JSValue Obj)) :
  silent (consoleLog args).
Proof. by split. Qed.

Lemma silent_thenLog (promise : Obj) banner :
  silent (thenLog (JSValue := JSValue) promise banner).
Proof. by split. Qed.

Lemma silent_bind (m : Run' unit) (k : unit -> Run' unit) :
  silent m -> silent (k tt) -> silent (bind m k).
Proof.
  intros Hm [Ho Hc]. split.
  - by rewrite outcome_bind_silent.
  - by rewrite callsOf_bind_silent.
Qed.

Lemma silent_when b (m : Run' unit) : silent m -> silent (when b m).
Proof. destruct b; [done | intros _; apply silent_ret]. Qed.

Lemma outcome_call {A} (ev : @Event JSValue Obj) (r : @Thrown JSValue + A) :
  outcome (call ev r) = r.
Proof. reflexivity. Qed.

Lemma callsOf_call {A} (ev : @Event JSValue Obj) (r : @Thrown JSValue + A) :
  isCall ev = true -> callsOf (call ev r) = [ev].
Proof. intros H. unfold callsOf, call, calls. simpl. by rewrite H. Qed.

Lemma outcome_ret {A} (a : A) : outcome (ret a : Run' A) = inr a.
Proof. reflexivity. Qed.

Lemma outcome_throw {A} (e : Thrown) : outcome (throw e : Run' A) = inl e.
Proof. reflexivity. Qed.

Lemma callsOf_throw {A} (e : Thrown) : callsOf (throw e : Run' A) = [].
Proof. reflexivity. Qed.

Lemma callsOf_ret {A} (a : A) : callsOf (ret a : Run' A) = [].
Proof. reflexivity. Qed.

Lemma outcome_evaluate {A} (r : @Thrown JSValue + A) :
  outcome (evaluate r : Run' A) = r.
Proof. reflexivity. Qed.

Lemma callsOf_jsonStringify (thrown : option (@Thrown JSValue)) :
  callsOf (jsonStringify thrown : Run' unit) = [].
Proof. by destruct thrown. Qed.

(** A run that only writes to the console and converts data calls no
    collaborator, whether it returns or throws. *)
Lemma callsOf_bind_nil {A B} (m : Run' A) (k : A -> Run' B) :
  callsOf m = [] -> (∀ a, callsOf (k a) = []) -> callsOf (bind m k) = [].
Proof.
  intros Hm Hk. rewrite callsOf_bind, Hm. simpl.
  destruct (outcome m); [done | apply Hk].
Qed.

End RunLemmas.

Create HintDb silent.
#[global] Hint Resolve silent_ret silent_consoleLog silent_thenLog
  silent_bind silent_when : silent.

Section DiagnosticsAreSilent.

Context {JSValue Obj : Type}.
Variable runtime : @Runtime JSValue.

Lemma silent_debugAPIError (e : @Thrown JSValue) :
  silent (debugAPIError (Obj := Obj) e).
Proof. destruct e; unfold debugAPIError; auto 10 with silent. Qed.

Lemma silent_debugResponse (result : @StreamTextResult Obj) :
  silent (debugResponse (JSValue := JSValue) result).
Proof. unfold debugResponse; auto 10 with silent. Qed.

Ltac no_calls :=
  repeat first
    [ apply callsOf_bind_nil; [|intros ?]
    | apply callsOf_jsonStringify
    | reflexivity ].

(** The first two diagnostic blocks may throw, but call no collaborator. *)
Lemma callsOf_debugRequest (input : @AIInput JSValue Obj) :
  callsOf (debugRequest runtime input) = [].
Proof. unfold debugRequest. cbn zeta. no_calls. Qed.

Lemma callsOf_debugConverted (input : @AIInput JSValue Obj) rule :
  callsOf (debugConverted runtime input rule) = [].
Proof. unfold debugConverted. cbn zeta. no_calls. Qed.

(** They return exactly when both serialisations do. *)
Lemma outcome_debugRequest (input : @AIInput JSValue Obj) :
  outcome (debugRequest runtime input)
  = match stringifyMessages runtime
            (List.map (snapshotMessage Diagnostics.snapshotOriginal)
               (messages input)) with
    | Some e => inl e
    | None =>
        match stringifyConfig runtime (config input) with
        | Some e => inl e
        | None => inr tt
        end
    end.
Proof.
  unfold debugRequest. cbn zeta.
  destruct (stringifyMessages _ _); [done|].
  by destruct (stringifyConfig _ _).
Qed.

Lemma outcome_debugConverted (input : @AIInput JSValue Obj) rule :
  outcome (debugConverted runtime input rule)
  = match stringifyMessages runtime
            (List.map (snapshotMessage Diagnostics.snapshotConverted)
               (rules_messages rule)) with
    | Some e => inl e
    | None => inr tt
    end.
Proof. unfold debugConverted. cbn zeta. by destruct (stringifyMessages _ _). Qed.

End DiagnosticsAreSilent.

#[global] Hint Resolve silent_debugAPIError silent_debugResponse : silent.

Section PathProofs.

Context {JSValue Obj : Type}.
Variable runtime : @Runtime JSValue.

Lemma handleAICallAPIError_outcome {V} processEnv (e : @Thrown JSValue) :
  outcome (handleAICallAPIError (Obj := Obj) (V := V) runtime processEnv e)
  = translated runtime e.
Proof.
  unfold handleAICallAPIError, translated.
  rewrite outcome_bind_silent by auto with silent.
  rewrite outcome_bind, outcome_evaluate.
  by destruct (errorMessage runtime e).
Qed.

Lemma handleAICallAPIError_calls {V} processEnv (e : @Thrown JSValue) :
  callsOf (handleAICallAPIError (Obj := Obj) (V := V) runtime processEnv e) = [].
Proof.
  unfold handleAICallAPIError.
  rewrite callsOf_bind_silent by auto with silent.
  by apply callsOf_bind_nil.
Qed.

Lemma aiCatch_outcome processEnv d (e : @Thrown JSValue) :
  outcome (aiCatch (Obj := Obj) runtime processEnv d e) = translated runtime e.
Proof.
  unfold aiCatch.
  rewrite outcome_bind_silent by auto with silent.
  apply handleAICallAPIError_outcome.
Qed.

Lemma aiCatch_calls processEnv d (e : @Thrown JSValue) :
  callsOf (aiCatch (Obj := Obj) runtime processEnv d e) = [].
Proof.
  unfold aiCatch.
  rewrite callsOf_bind_silent by auto with silent.
  apply handleAICallAPIError_calls.
Qed.

(** The Error Translator makes a failure with the code [AIRunError], or
    throws; it never makes a success. *)
Lemma translated_failure {V} (e : @Thrown JSValue) (err : ChainError) :
  translated (V := V) runtime e = inr (ResultError err) -> code err = AIRunError.
Proof.
  unfold translated. destruct (errorMessage runtime e); [done|].
  by intros [= <-].
Qed.

Lemma translated_not_ok {V} (e : @Thrown JSValue) (v : V) :
  translated runtime e ≠ inr (ResultOk v).
Proof. unfold translated. by destruct (errorMessage runtime e). Qed.

Ltac run_collaborator :=
  match goal with
  | |- context [outcome (debugRequest ?rt ?i)] =>
      destruct (outcome (debugRequest rt i)) as [?e|[]] eqn:?
  | |- context [outcome (debugConverted ?rt ?i ?r)] =>
      destruct (outcome (debugConverted rt i r)) as [?e|[]] eqn:?
  | |- context [match applyAllRules ?i ?a with _ => _ end] =>
      destruct (applyAllRules i a) as [?e|?rule] eqn:?
  | |- context [Nat.ltb 0 (List.length (rules ?r))] =>
      destruct (rules r) eqn:?; cbn [List.length Nat.ltb Nat.leb]
  | |- context [match createProvider ?i ?a with _ => _ end] =>
      destruct (createProvider i a) as [?e|[?llm|?err]] eqn:?
  | |- context [match getLanguageModel ?i ?a with _ => _ end] =>
      destruct (getLanguageModel i a) as [?e|?lm] eqn:?
  | |- context [match buildTools ?i ?a with _ => _ end] =>
      destruct (buildTools i a) as [?e|[?tv|?err]] eqn:?
  | |- context [match ?f (streamTextArgs ?i ?r ?lm ?tv) with _ => _ end] =>
      destruct (f (streamTextArgs i r lm tv)) as [?e|?result] eqn:?
  | |- context [callStreamText (resolveStreamText ?i ?a) _] =>
      destruct (resolveStreamText i a) as [?streamText|] eqn:?;
      unfold callStreamText
  end.

Ltac run_step :=
  first
    [ rewrite outcome_bind_silent by auto with silent
    | rewrite callsOf_bind_silent by auto with silent
    | rewrite outcome_bind
    | rewrite callsOf_bind
    | rewrite outcome_call
    | rewrite callsOf_call by reflexivity
    | rewrite outcome_ret
    | rewrite callsOf_ret
    | rewrite outcome_throw
    | rewrite callsOf_throw
    | rewrite aiCatch_outcome
    | rewrite aiCatch_calls
    | rewrite callsOf_debugRequest
    | rewrite callsOf_debugConverted
    | progress cbn beta iota
    | progress cbn [when]
    | run_collaborator ].

(** What the [catch] clause makes of the outcome of the [try] block. *)
Lemma ai_outcome (imports : @Imports JSValue Obj) processEnv
    (input : @AIInput JSValue Obj) :
  outcome (ai runtime imports processEnv input)
  = match outcome (aiTry runtime imports
                     (resolveStreamText imports (aiSdkProvider input))
                     (debugEnabled processEnv) input) with
    | inl e => translated runtime e
    | inr r => inr r
    end.
Proof.
  unfold ai. cbn zeta. rewrite outcome_tryCatch.
  destruct (outcome (aiTry _ _ _ _ _)); [apply aiCatch_outcome | done].
Qed.

Lemma ai_calls (imports : @Imports JSValue Obj) processEnv
    (input : @AIInput JSValue Obj) :
  callsOf (ai runtime imports processEnv input)
  = callsOf (aiTry runtime imports
               (resolveStreamText imports (aiSdkProvider input))
               (debugEnabled processEnv) input).
Proof.
  unfold ai. cbn zeta. rewrite callsOf_tryCatch.
  destruct (outcome (aiTry _ _ _ _ _)); rewrite ?aiCatch_calls; apply app_nil_r.
Qed.

(** The [try] block is stopped by its first diagnostic block, or by its
    second, or follows one of the paths. *)
Lemma aiTry_path (imports : @Imports JSValue Obj) debugAI
    (input : @AIInput JSValue Obj) :
  let attempt :=
    aiTry runtime imports (resolveStreamText imports (aiSdkProvider input))
      debugAI input in
  (∃ e, debugAI = true
        ∧ outcome (debugRequest runtime input) = inl e
        ∧ callsOf attempt = []
        ∧ outcome attempt = inl e)
  ∨ (∃ rule llm lm tv e,
        debugAI = true
        ∧ equipped imports input rule llm lm tv
        ∧ outcome (debugConverted runtime input rule) = inl e
        ∧ callsOf attempt
          = [EvApplyAllRules (applyAllRulesArgs input);
             EvCreateProvider (createProviderArgs input rule);
             EvGetLanguageModel (getLanguageModelArgs input rule llm);
             EvBuildTools (rules_config rule !! "tools")]
        ∧ outcome attempt = inl e)
  ∨ Path imports input (callsOf attempt) (outcome attempt).
Proof.
  intros attempt. subst attempt. unfold aiTry.
  destruct debugAI.
  all: repeat run_step.
  all: rewrite ?app_nil_r; cbn [app].
  all: try match goal with H : rules _ = _ :: _ |- _ => rewrite <- H end.
  all: first
    [ solve [left; eexists; by repeat split]
    | solve [right; right;
             econstructor; repeat split; first [eassumption | congruence]]
    | solve [right; left; eexists _, _, _, _, _;
             repeat split; first [eassumption | reflexivity]] ].
Qed.

(** Every run of [ai] is stopped by its first diagnostic block, or by its
    second, or follows one of the paths; what the [try] block threw is
    handed to the Error Translator. *)
Lemma ai_path (imports : @Imports JSValue Obj) processEnv
    (input : @AIInput JSValue Obj) :
  let attempt :=
    aiTry runtime imports (resolveStreamText imports (aiSdkProvider input))
      (debugEnabled processEnv) input in
  let run := ai runtime imports processEnv input in
  (∃ e, debugEnabled processEnv = true
        ∧ outcome (debugRequest runtime input) = inl e
        ∧ outcome attempt = inl e
        ∧ callsOf run = []
        ∧ outcome run = translated runtime e)
  ∨ (∃ rule llm lm tv e,
        debugEnabled processEnv = true
        ∧ equipped imports input rule llm lm tv
        ∧ outcome (debugConverted runtime input rule) = inl e
        ∧ outcome attempt = inl e
        ∧ callsOf run
          = [EvApplyAllRules (applyAllRulesArgs input);
             EvCreateProvider (createProviderArgs input rule);
             EvGetLanguageModel (getLanguageModelArgs input rule llm);
             EvBuildTools (rules_config rule !! "tools")]
        ∧ outcome run = translated runtime e)
  ∨ (∃ t o, callsOf run = t
            ∧ outcome attempt = o
            ∧ outcome run
              = match o with inl e => translated runtime e | inr v => inr v end
            ∧ Path imports input t o).
Proof.
  intros attempt run. subst attempt run.
  rewrite ai_outcome, ai_calls.
  destruct (aiTry_path imports (debugEnabled processEnv) input)
    as [(e & Hd & Hreq & Hcalls & Ho)
       |[(rule & llm & lm & tv & e & Hd & Heq & Hconv & Hcalls & Ho)|Hp]].
  - left. exists e. rewrite Hcalls, Ho. by rewrite Hd in *.
  - right; left. exists rule, llm, lm, tv, e. rewrite Hcalls, Ho.
    by rewrite Hd in *.
  - right; right. by eexists _, _.
Qed.

End PathProofs.

(** ** Tactics for following a run *)

Ltac same_call :=
  match goal with
  | H1 : ?x = _, H2 : ?x = _ |- _ => rewrite H1 in H2; simplify_eq
  end.

Ltac open_stages :=
  unfold equipped, resolved, adapted, validated in *;
  repeat match goal with H : _ ∧ _ |- _ => destruct H end.

Ltac choose_event H :=
  simpl in H;
  repeat match type of H with
         | _ ∨ _ => destruct H as [H|H]
         | False => destruct H
         | _ = _ => first [discriminate H | injection H as H]
         end.

(** The three ways a run of [ai] can go: stopped by the first diagnostic
    block, stopped by the second, or along a path. *)
Ltac take_path runtime imports processEnv input :=
  let H := fresh in
  pose proof (ai_path runtime imports processEnv input) as H; cbv zeta in H;
  destruct H
    as [(e0 & Hd0 & Hreq0 & Htry & Hcalls & Ho)
       |[(rule0 & llm0 & lm0 & tv0 & e0 & Hd0 & Heq0 & Hconv0 & Htry
          & Hcalls & Ho)
        |(t & o & Hcalls & Htry & Ho & Hp)]].

Ltac no_success :=
  match goal with
  | H : translated _ _ = inr (ResultOk _) |- _ =>
      by apply translated_not_ok in H
  end.

(** ** Properties of the orchestrator *)

Section Orchestration.

Context {JSValue Obj : Type}.
Variable runtime : @Runtime JSValue.
Variable imports : @Imports JSValue Obj.

Lemma isCallTo_isCall k (ev : @Event JSValue Obj) :
  isCallTo k ev = true -> isCall ev = true.
Proof. unfold isCallTo, isCall. destruct (callee ev); [done | by destruct k]. Qed.

Lemma invocations_calls k (t : list (@Event JSValue Obj)) :
  invocations k (calls t) = invocations k t.
Proof.
  unfold invocations, calls. induction t as [|ev t IH]; [done|].
  simpl. destruct (isCall ev) eqn:Hc; simpl.
  - destruct (isCallTo k ev); by rewrite IH.
  - destruct (isCallTo k ev) eqn:Hk; [|done].
    apply isCallTo_isCall in Hk. congruence.
Qed.

Lemma invocations_callsOf {A} k (m : Run (JSValue := JSValue) (Obj := Obj) A) :
  invocations k (trace m) = invocations k (callsOf m).
Proof. symmetry. apply invocations_calls. Qed.

Lemma In_calls (ev : @Event JSValue Obj) t :
  isCall ev = true -> In ev t -> In ev (calls t).
Proof. intros Hc Hin. unfold calls. apply List.filter_In. by split. Qed.

Lemma In_trace_callsOf {A} (m : Run (JSValue := JSValue) (Obj := Obj) A) ev :
  isCall ev = true -> In ev (trace m) -> In ev (callsOf m).
Proof. apply In_calls. Qed.

(** Which path is taken, and where it ends, is decided by the imports and
    the input alone. *)
Lemma Path_functional (input : @AIInput JSValue Obj) t1 r1 t2 r2 :
  Path imports input t1 r1 ->
  Path imports input t2 r2 ->
  t1 = t2 ∧ r1 = r2.
Proof.
  intros H1 H2.
  destruct H1; destruct H2; open_stages; repeat same_call; try done.
Qed.

(** C1, as the code has it.  On a run that calls the Rule Engine and gets
    one or more violations, [ai] returns the failure [AIRunError] whose
    message is the line "There are rule violations:" followed by the
    violations, one per line, each prefixed "- ". *)
Theorem ai_violations_message processEnv (input : @AIInput JSValue Obj) rule :
  In (EvApplyAllRules (applyAllRulesArgs input))
     (trace (ai runtime imports processEnv input)) ->
  applyAllRules imports (applyAllRulesArgs input) = inr rule ->
  rules rule ≠ [] ->
  outcome (ai runtime imports processEnv input)
  = inr (ResultError
           {| code := AIRunError;
              message := "There are rule violations:" +:+ JS.nl
                         +:+ violationLines (rules rule) |}).
Proof.
  intros Hin Hrule Hne. apply In_trace_callsOf in Hin; [|done].
  take_path runtime imports processEnv input; rewrite Hcalls in Hin; rewrite Ho.
  - destruct Hin.
  - open_stages. by same_call.
  - destruct Hp; open_stages; repeat same_call; done.
Qed.

(** C4.  When the Rule Engine returns one or more violations, the run of
    [ai] holds no call to [createProvider], [getLanguageModel], [buildTools]
    or [streamText], and once the Rule Engine has been called [ai] returns a
    failure. *)
Theorem ai_violations_stop_the_run processEnv (input : @AIInput JSValue Obj) rule :
  applyAllRules imports (applyAllRulesArgs input) = inr rule ->
  rules rule ≠ [] ->
  let run := ai runtime imports processEnv input in
  invocations KCreateProvider (trace run) = []
  ∧ invocations KGetLanguageModel (trace run) = []
  ∧ invocations KBuildTools (trace run) = []
  ∧ invocations KStreamText (trace run) = []
  ∧ (In (EvApplyAllRules (applyAllRulesArgs input)) (trace run) ->
     ∃ err, outcome run = inr (ResultError err)).
Proof.
  intros Hrule Hne run. subst run.
  rewrite !invocations_callsOf.
  assert (Hreached :
            In (EvApplyAllRules (applyAllRulesArgs input))
               (trace (ai runtime imports processEnv input)) ->
            In (EvApplyAllRules (applyAllRulesArgs input))
               (callsOf (ai runtime imports processEnv input)))
    by (by apply In_trace_callsOf).
  take_path runtime imports processEnv input; rewrite Hcalls in *; rewrite Ho.
  - repeat split; try done. intros Hin. destruct (Hreached Hin).
  - open_stages. by same_call.
  - destruct Hp; open_stages; repeat same_call; try done.
    repeat split; eauto.
Qed.

(** C5.  On a run that calls the Tool Builder with tool schemas on which
    it returns a failure, [streamText] is never called and [ai] returns
    that very failure. *)
Theorem ai_tool_error_verbatim processEnv (input : @AIInput JSValue Obj) tools err :
  In (EvBuildTools tools) (trace (ai runtime imports processEnv input)) ->
  buildTools imports tools = inr (ResultError err) ->
  invocations KStreamText (trace (ai runtime imports processEnv input)) = []
  ∧ outcome (ai runtime imports processEnv input) = inr (ResultError err).
Proof.
  intros Hin Hfail. apply In_trace_callsOf in Hin; [|done].
  rewrite invocations_callsOf.
  take_path runtime imports processEnv input; rewrite Hcalls in *; rewrite Ho.
  - destruct Hin.
  - choose_event Hin. subst. open_stages. by same_call.
  - destruct Hp; choose_event Hin; subst; open_stages; repeat same_call; done.
Qed.

(** A value thrown by a step of the run is what the [try] block throws. *)
Lemma raises_aiTry processEnv (input : @AIInput JSValue Obj) e :
  raises runtime imports input (debugEnabled processEnv)
    (trace (ai runtime imports processEnv input)) e ->
  outcome (aiTry runtime imports
             (resolveStreamText imports (aiSdkProvider input))
             (debugEnabled processEnv) input)
  = inl e.
Proof.
  intros Hraise.
  take_path runtime imports processEnv input; rewrite Htry.
  - destruct Hraise as [? ? Hin|? ? Hin|? ? Hin|? ? Hin|? ? ? Hin|? ? Hin];
      (apply In_trace_callsOf in Hin; [|done]); rewrite Hcalls in Hin;
      destruct Hin.
  - destruct Hraise as [? ? Hin|? ? Hin|? ? Hin|? ? Hin|? ? ? Hin|? ? Hin];
      (apply In_trace_callsOf in Hin; [|done]); rewrite Hcalls in Hin;
      choose_event Hin; subst; open_stages; repeat same_call.
    rewrite Hd0 in *. simpl in *. congruence.
  - destruct Hraise as [? ? Hin|? ? Hin|? ? Hin|? ? Hin|? ? ? Hin|? ? Hin];
      (apply In_trace_callsOf in Hin; [|done]); rewrite Hcalls in Hin;
      destruct Hp; choose_event Hin; subst; open_stages; repeat same_call;
      done.
Qed.

(** X28.  A value thrown by validation, adapter construction, model
    resolution, tool building or dispatch is caught and handed to the Error
    Translator, and the run ends as the Error Translator does on that
    value: with the failure [AIRunError] that carries its message when a
    message can be made, with what the string conversion threw when not. *)
Theorem ai_hands_what_is_thrown_to_the_translator processEnv
    (input : @AIInput JSValue Obj) e :
  raises runtime imports input (debugEnabled processEnv)
    (trace (ai runtime imports processEnv input)) e ->
  outcome (ai runtime imports processEnv input)
  = outcome (handleAICallAPIError (Obj := Obj) runtime processEnv e)
  ∧ (∀ m, errorMessage runtime e = inr m ->
          outcome (ai runtime imports processEnv input)
          = inr (ResultError {| code := AIRunError; message := m |}))
  ∧ (∀ thrown, errorMessage runtime e = inl thrown ->
               outcome (ai runtime imports processEnv input) = inl thrown).
Proof.
  intros Hraise. rewrite ai_outcome, (raises_aiTry _ _ _ Hraise).
  rewrite handleAICallAPIError_outcome. unfold translated.
  split; [done|]. split; by intros ? ->.
Qed.

(** X29.  When the diagnostic blocks do not throw, two runs of [ai] on the
    same input with the same imports, one with the diagnostic flag on and
    one with it off, end alike and make the same collaborator calls in the
    same order. *)
Theorem ai_flag_is_inert_when_logging_succeeds env1 env2 (input : @AIInput JSValue Obj) :
  debugEnabled env1 = true ->
  debugEnabled env2 = false ->
  outcome (debugRequest runtime input) = inr tt ->
  (∀ rule, applyAllRules imports (applyAllRulesArgs input) = inr rule ->
           outcome (debugConverted runtime input rule) = inr tt) ->
  outcome (ai runtime imports env1 input)
  = outcome (ai runtime imports env2 input)
  ∧ callsOf (ai runtime imports env1 input)
    = callsOf (ai runtime imports env2 input).
Proof.
  intros Hon Hoff Hreq Hconv.
  take_path runtime imports env1 input; [congruence| |].
  { open_stages. rewrite Hconv in Hconv0 by done. done. }
  rename t into t1, o into o1, Hcalls into Hcalls1, Ho into Ho1, Hp into Hp1.
  clear Htry.
  take_path runtime imports env2 input; [congruence..|].
  destruct (Path_functional _ _ _ _ _ Hp1 Hp) as [-> ->].
  split; congruence.
Qed.

(** The keys the dispatch sets itself, after spreading the configuration. *)
Lemma streamTextArgs_schema (input : @AIInput JSValue Obj) rule lm tv :
  streamTextArgs input rule lm tv !! "schema" = None.
Proof.
  unfold streamTextArgs, objectLiteral, omitSchema. simpl.
  rewrite !lookup_insert_ne by done.
  by rewrite lookup_fmap, lookup_delete_eq.
Qed.

Lemma streamTextArgs_passthrough (input : @AIInput JSValue Obj) rule lm tv k :
  k ∉ ["schema"; "model"; "prompt"; "messages"; "tools"; "abortSignal";
       "providerOptions"; "experimental_telemetry"; "experimental_transform";
       "experimental_output"] ->
  streamTextArgs input rule lm tv !! k = VData <$> rules_config rule !! k.
Proof.
  intros Hk. unfold streamTextArgs, objectLiteral, omitSchema. simpl.
  rewrite !lookup_insert_ne by (intros <-; apply Hk; set_solver).
  rewrite lookup_fmap, lookup_delete_ne; [done|].
  intros <-. apply Hk. set_solver.
Qed.

Lemma streamTextArgs_keys (input : @AIInput JSValue Obj) rule lm tv k :
  k ≠ "schema" ->
  is_Some (rules_config rule !! k) ->
  is_Some (streamTextArgs input rule lm tv !! k).
Proof.
  intros Hk [v Hv]. unfold streamTextArgs, objectLiteral, omitSchema. simpl.
  repeat (rewrite lookup_insert; case_decide; [by eauto|]).
  rewrite lookup_fmap, lookup_delete_ne, Hv by done. by eauto.
Qed.

Lemma streamTextArgs_model (input : @AIInput JSValue Obj) rule lm tv :
  streamTextArgs input rule lm tv !! "model" = Some (VObj lm).
Proof.
  unfold streamTextArgs, objectLiteral, omitSchema. simpl.
  rewrite !lookup_insert_ne by done. by rewrite lookup_insert_eq.
Qed.

Lemma streamTextArgs_providerOptions (input : @AIInput JSValue Obj) rule lm tv :
  streamTextArgs input rule lm tv !! "providerOptions"
  = Some (getField (rules_config rule) "providerOptions").
Proof.
  unfold streamTextArgs, objectLiteral, omitSchema. simpl.
  rewrite !lookup_insert_ne by done. by rewrite lookup_insert_eq.
Qed.

Lemma successValue_type (input : @AIInput JSValue Obj) result :
  successValue input result !! "type"
  = Some (VString (resultType (schema input) (output input))).
Proof.
  unfold successValue, objectLiteral. simpl.
  rewrite !lookup_insert_ne by done. by rewrite lookup_insert_eq.
Qed.

Lemma successValue_dom (input : @AIInput JSValue Obj) result :
  dom (successValue input result)
  = list_to_set ["type"; "providerName"; "fullStream"; "text"; "reasoning";
                 "usage"; "toolCalls"; "providerMetadata"; "sources";
                 "finishReason"; "response"].
Proof.
  unfold successValue, objectLiteral. simpl.
  rewrite !dom_insert_L, dom_empty_L. set_solver.
Qed.

Lemma ai_success processEnv (input : @AIInput JSValue Obj) r :
  outcome (ai runtime imports processEnv input) = inr (ResultOk r) ->
  ∃ result, r = successValue input result.
Proof.
  intros H. take_path runtime imports processEnv input; rewrite Ho in H; try no_success.
  destruct Hp; try no_success; simplify_eq. eauto.
Qed.

(** C2.  On a successful run the [type] entry of the returned value is
    ["object"] exactly when a schema is given and the output mode is
    ['object'] or ['array'], and ["text"] in every other case; it is the
    function [resultType] of the schema and the output mode alone, whatever
    the provider and the collaborators. *)
Theorem ai_result_type processEnv (input : @AIInput JSValue Obj) r :
  outcome (ai runtime imports processEnv input) = inr (ResultOk r) ->
  let structured :=
    is_Some (schema input)
    ∧ (output input = Some OutObject ∨ output input = Some OutArray) in
  r !! "type" = Some (VString (resultType (schema input) (output input)))
  ∧ (r !! "type" = Some (VString "object") ↔ structured)
  ∧ (¬ structured -> r !! "type" = Some (VString "text")).
Proof.
  intros Hok structured. subst structured.
  destruct (ai_success _ _ _ Hok) as [result ->].
  rewrite successValue_type. split; [done|].
  unfold resultType, useSchema.
  destruct (schema input) as [s|], (output input) as [[| |]|]; simpl.
  all: split; [split|].
  all: try (intros _; split; [by eexists | by auto]).
  all: try (intros [[? ?] [?|?]]; done).
  all: try done.
  all: intros Hn; exfalso; apply Hn; split; [by eexists | by auto].
Qed.

(** C10.  The value of a successful run has exactly the eleven keys [type],
    [providerName], [fullStream], [text], [reasoning], [usage], [toolCalls],
    [providerMetadata], [sources], [finishReason] and [response]; it has no
    [object] key, in structured-object mode as in text mode. *)
Theorem ai_success_fields processEnv (input : @AIInput JSValue Obj) r :
  outcome (ai runtime imports processEnv input) = inr (ResultOk r) ->
  dom r = list_to_set ["type"; "providerName"; "fullStream"; "text"; "reasoning";
                       "usage"; "toolCalls"; "providerMetadata"; "sources";
                       "finishReason"; "response"]
  ∧ r !! "object" = None.
Proof.
  intros Hok. destruct (ai_success _ _ _ Hok) as [result ->].
  pose proof (successValue_dom input result) as Hdom. split; [done|].
  apply not_elem_of_dom. rewrite Hdom, elem_of_list_to_set.
  intros H. repeat (apply elem_of_cons in H as [H|H]; [discriminate|]).
  by apply elem_of_nil in H.
Qed.

(** C7, as the code has it.  The object handed to [streamText] has every
    key of the rule-transformed configuration except [schema], which it
    lacks; an entry of the configuration is passed on unchanged unless its
    key is [schema] or one of the nine keys the dispatch sets itself
    ([model], [prompt], [messages], [tools], [abortSignal],
    [providerOptions], [experimental_telemetry], [experimental_transform],
    [experimental_output]); [providerOptions] is set to the configuration's
    own [providerOptions]. *)
Theorem ai_dispatch_config processEnv (input : @AIInput JSValue Obj) args :
  In (EvStreamText args) (trace (ai runtime imports processEnv input)) ->
  ∃ rule,
    applyAllRules imports (applyAllRulesArgs input) = inr rule
    ∧ args !! "schema" = None
    ∧ (∀ k, k ≠ "schema" -> is_Some (rules_config rule !! k) -> is_Some (args !! k))
    ∧ (∀ k, k ∉ ["schema"; "model"; "prompt"; "messages"; "tools"; "abortSignal";
                 "providerOptions"; "experimental_telemetry";
                 "experimental_transform"; "experimental_output"] ->
            args !! k = VData <$> rules_config rule !! k)
    ∧ args !! "providerOptions"
      = Some (getField (rules_config rule) "providerOptions").
Proof.
  intros Hin. apply In_trace_callsOf in Hin; [|done].
  take_path runtime imports processEnv input; rewrite Hcalls in Hin.
  - destruct Hin.
  - by choose_event Hin.
  - destruct Hp; choose_event Hin; subst;
      open_stages; exists rule; repeat split;
      auto using streamTextArgs_schema, streamTextArgs_keys,
        streamTextArgs_passthrough, streamTextArgs_providerOptions.
Qed.

(** X30.  The Error Translator returns a failure with the code
    [AIRunError] for every caught value that is an error or has a string
    form.  Its message
    is "Error: M and response body: B" for a transport error with message M
    and response body B, "Unknown error: X" for any other error with
    message X, and "Unknown error: " followed by the string form of the
    value for anything else.  For a value without a string form it throws
    what the conversion throws. *)
Theorem handleAICallAPIError_messages {V : Type} processEnv :
  let translate e :=
    outcome (handleAICallAPIError (Obj := Obj) (V := V) runtime processEnv e) in
  (∀ m b url body,
      translate (APICallError m (Some b) url body)
      = inr (ResultError
               {| code := AIRunError;
                  message := "Error: " +:+ m +:+ " and response body: " +:+ b |}))
  ∧ (∀ m,
      translate (ErrorValue m)
      = inr (ResultError
               {| code := AIRunError; message := "Unknown error: " +:+ m |}))
  ∧ (∀ v s,
      toString runtime v = inr s ->
      translate (OtherValue v)
      = inr (ResultError
               {| code := AIRunError; message := "Unknown error: " +:+ s |}))
  ∧ (∀ v thrown,
      toString runtime v = inl thrown -> translate (OtherValue v) = inl thrown)
  ∧ (∀ e r, translate e = inr r ->
            ∃ err, r = ResultError err ∧ code err = AIRunError).
Proof.
  intros translate. subst translate. cbv beta.
  repeat split; intros *; rewrite handleAICallAPIError_outcome; try done.
  - unfold translated. simpl. by intros ->.
  - unfold translated. simpl. by intros ->.
  - unfold translated. destruct (errorMessage runtime e); [done|].
    intros [= <-]. by eexists.
Qed.

End Orchestration.

(** ** Properties of the diagnostic snapshot *)

Lemma string_length_append (s1 s2 : string) :
  String.length (s1 +:+ s2) = String.length s1 + String.length s2.
Proof. induction s1 as [|c s1 IH]; simpl; [done | by rewrite IH]. Qed.

Lemma substring0_length n (s : string) : String.length (JS.substring0 n s) ≤ n.
Proof.
  unfold JS.substring0. revert s.
  induction n as [|n IH]; intros [|c s]; simpl; try lia.
  specialize (IH s). lia.
Qed.

Lemma truncate100_length (s : string) : String.length (JS.truncate100 s) ≤ 103.
Proof.
  unfold JS.truncate100. rewrite string_length_append.
  pose proof (substring0_length 100 s).
  destruct (100 <? String.length s); simpl; lia.
Qed.

Lemma textField_length t : String.length (Diagnostics.textField t) ≤ 103.
Proof. destruct t; simpl; [apply truncate100_length | lia]. Qed.

Lemma preview_length d :
  Data.isURL d = false -> String.length (Diagnostics.preview d) ≤ 103.
Proof.
  destruct d; simpl; try lia.
  intros ->. rewrite string_length_append.
  pose proof (substring0_length 100 s). simpl. lia.
Qed.

Lemma preview_url s :
  Data.isURL (DString s) = true -> Diagnostics.preview (DString s) = s.
Proof. simpl. by intros ->. Qed.

Lemma size_string s : Data.size (DString s) = String.length s.
Proof. unfold Data.size. simpl. by destruct (String.length s). Qed.

Lemma size_bytes (b : list Byte.byte) :
  Data.size (DBuffer b) = length b
  ∧ Data.size (DUint8Array b) = length b
  ∧ Data.size (DArrayBuffer b) = length b.
Proof. unfold Data.size. simpl. by destruct (length b). Qed.

(** What either block logs of a text part. *)
Lemma snapshotWith_text fileOf c :
  part_type c = "text" ->
  Diagnostics.snapshotWith fileOf c
  = SnapText "text" (Diagnostics.textField (part_text c)).
Proof. intros H. unfold Diagnostics.snapshotWith. by rewrite H. Qed.

(** ... of an image part. *)
Lemma snapshotWith_image fileOf c :
  part_type c = "image" ->
  Diagnostics.snapshotWith fileOf c
  = SnapImage "image" (Diagnostics.imageInfo (part_image c)).
Proof. intros H. unfold Diagnostics.snapshotWith. by rewrite H. Qed.

(** ... of a file part. *)
Lemma snapshotWith_file fileOf c :
  part_type c = "file" ->
  Diagnostics.snapshotWith fileOf c
  = SnapFile "file" (Diagnostics.fileInfo (fileOf c) (part_mimeType c)).
Proof. intros H. unfold Diagnostics.snapshotWith. by rewrite H. Qed.

(** ... of any other part. *)
Lemma snapshotWith_bare fileOf c :
  part_type c ≠ "text" -> part_type c ≠ "image" -> part_type c ≠ "file" ->
  Diagnostics.snapshotWith fileOf c = SnapBare (part_type c).
Proof.
  intros H1 H2 H3. unfold Diagnostics.snapshotWith.
  destruct (String.eqb_spec (part_type c) "text"); [done|].
  destruct (String.eqb_spec (part_type c) "image"); [done|].
  by destruct (String.eqb_spec (part_type c) "file").
Qed.

(** C9, as the code has it.  What either diagnostic block logs of a content
    part.  Of a text part: the text cut to its first 100 characters,
    followed by "..." when it was longer, 103 characters at most.  Of an
    image given as a string that starts with neither "http" nor "data:":
    its first 100 characters followed by "...", and its length.  Of binary
    image data, a URL object or a missing image: the label "Binary data"
    and the payload's presence, type, kind and number of bytes, nothing of
    its content.  Of a file part: the presence, mime type, type and length
    of the payload, nothing of its content.  Of any other part: its type.
    An image given as a string that starts with "http" or "data:" is logged
    in full. *)
Theorem snapshot_truncation (c : ContentPart) snapshot payload :
  (snapshot = Diagnostics.snapshotOriginal ∧ payload = part_file c)
  ∨ (snapshot = Diagnostics.snapshotConverted
     ∧ payload = Data.orData (part_data c) (part_file c)) ->
  (part_type c = "text" ->
   ∃ text,
     snapshot c = SnapText "text" text
     ∧ String.length text ≤ 103
     ∧ (∀ s, part_text c = Some s ->
             text = JS.substring0 100 s
                    +:+ (if Nat.ltb 100 (String.length s) then "..." else "")))
  ∧ (part_type c = "image" ->
     ∃ info,
       snapshot c = SnapImage "image" info
       ∧ (∀ s, part_image c = DString s -> Data.isURL (DString s) = false ->
               info = {| ii_present := negb (Nat.eqb (String.length s) 0);
                         ii_dataType := "string";
                         ii_isURL := false;
                         ii_isBuffer := false;
                         ii_isUint8Array := false;
                         ii_size := String.length s;
                         ii_preview := JS.substring0 100 s +:+ "..." |}
               ∧ String.length (ii_preview info) ≤ 103)
       ∧ (∀ s, part_image c = DString s -> Data.isURL (DString s) = true ->
               ii_preview info = s ∧ ii_size info = String.length s)
       ∧ (∀ b, part_image c = DBuffer b ->
               info = {| ii_present := true; ii_dataType := "object";
                         ii_isURL := false; ii_isBuffer := true;
                         ii_isUint8Array := true; ii_size := length b;
                         ii_preview := "Binary data" |})
       ∧ (∀ b, part_image c = DUint8Array b ->
               info = {| ii_present := true; ii_dataType := "object";
                         ii_isURL := false; ii_isBuffer := false;
                         ii_isUint8Array := true; ii_size := length b;
                         ii_preview := "Binary data" |})
       ∧ (∀ b, part_image c = DArrayBuffer b ->
               info = {| ii_present := true; ii_dataType := "object";
                         ii_isURL := false; ii_isBuffer := false;
                         ii_isUint8Array := false; ii_size := length b;
                         ii_preview := "Binary data" |})
       ∧ (∀ href, part_image c = DURL href ->
               info = {| ii_present := true; ii_dataType := "object";
                         ii_isURL := false; ii_isBuffer := false;
                         ii_isUint8Array := false; ii_size := 0;
                         ii_preview := "Binary data" |})
       ∧ (part_image c = DUndefined ->
               info = {| ii_present := false; ii_dataType := "undefined";
                         ii_isURL := false; ii_isBuffer := false;
                         ii_isUint8Array := false; ii_size := 0;
                         ii_preview := "Binary data" |}))
  ∧ (part_type c = "file" ->
     ∃ info,
       snapshot c = SnapFile "file" info
       ∧ (∀ s, payload = DString s ->
               info = {| fi_present := negb (Nat.eqb (String.length s) 0);
                         fi_mimeType := part_mimeType c;
                         fi_dataType := "string";
                         fi_size := String.length s |})
       ∧ (∀ b, payload = DBuffer b ∨ payload = DUint8Array b
               ∨ payload = DArrayBuffer b ->
               info = {| fi_present := true;
                         fi_mimeType := part_mimeType c;
                         fi_dataType := "object";
                         fi_size := length b |})
       ∧ (∀ href, payload = DURL href ->
               info = {| fi_present := true;
                         fi_mimeType := part_mimeType c;
                         fi_dataType := "object";
                         fi_size := 0 |})
       ∧ (payload = DUndefined ->
               info = {| fi_present := false;
                         fi_mimeType := part_mimeType c;
                         fi_dataType := "undefined";
                         fi_size := 0 |}))
  ∧ (part_type c ≠ "text" -> part_type c ≠ "image" -> part_type c ≠ "file" ->
     snapshot c = SnapBare (part_type c)).
Proof.
  intros Hblock.
  assert (∃ fileOf, snapshot = Diagnostics.snapshotWith fileOf
                    ∧ payload = fileOf c) as (fileOf & -> & ->).
  { destruct Hblock as [[-> ->] | [-> ->]]; by eexists. }
  clear Hblock. split; [|split; [|split]].
  - intros Ht. rewrite snapshotWith_text by done.
    eexists. split; [done|]. split; [apply textField_length|].
    by intros s ->.
  - intros Ht. rewrite snapshotWith_image by done.
    eexists. split; [done|]. unfold Diagnostics.imageInfo.
    split.
    { intros s -> Hurl. split.
      - rewrite size_string. simpl in *. by rewrite Hurl.
      - by apply (preview_length (DString s)). }
    split.
    { intros s -> Hurl. split; [by apply preview_url | apply size_string]. }
    split; [intros b ->; by destruct (size_bytes b) as (-> & _ & _)|].
    split; [intros b ->; by destruct (size_bytes b) as (_ & -> & _)|].
    split; [intros b ->; by destruct (size_bytes b) as (_ & _ & ->)|].
    split; [by intros href ->|]. by intros ->.
  - intros Ht. rewrite snapshotWith_file by done.
    eexists. split; [done|]. unfold Diagnostics.fileInfo.
    split; [intros s ->; by rewrite size_string|].
    split.
    { intros b [-> | [-> | ->]];
        destruct (size_bytes b) as (H1 & H2 & H3); by rewrite ?H1, ?H2, ?H3. }
    split; [by intros href ->|]. by intros ->.
  - apply snapshotWith_bare.
Qed.

(** ** The properties on concrete runs *)

Ltac not_in_list :=
  let H := fresh in
  intros H; repeat (apply elem_of_cons in H as [H|H]; [discriminate|]);
  by apply elem_of_nil in H.

Lemma letters_length n : String.length (Demo.letters n) = n.
Proof. induction n as [|n IH]; simpl; [done | by rewrite IH]. Qed.

(** C1, as the spec words it, fails: with two violations the message is
    not the bulleted violations alone, it starts with a header line. *)
Lemma ai_violations_message_has_header :
  ∃ rule err,
    applyAllRules Demo.strictImports (applyAllRulesArgs Demo.input) = inr rule
    ∧ rules rule ≠ []
    ∧ outcome (ai Demo.runtime Demo.strictImports Demo.debugOff Demo.input)
      = inr (ResultError err)
    ∧ violationLines (rules rule)
      = "- System messages must come first" +:+ JS.nl
        +:+ "- Only one image is allowed"
    ∧ message err ≠ violationLines (rules rule).
Proof.
  eexists _, _.
  split; [reflexivity|]. split; [discriminate|].
  split; [vm_compute; reflexivity|]. split; [reflexivity|].
  vm_compute. discriminate.
Qed.

Lemma ai_violations_message_witness :
  outcome (ai Demo.runtime Demo.strictImports Demo.debugOff Demo.input)
  = inr (ResultError
           {| code := AIRunError;
              message := "There are rule violations:" +:+ JS.nl
                         +:+ "- System messages must come first" +:+ JS.nl
                         +:+ "- Only one image is allowed" |}).
Proof.
  assert (Hin : In (EvApplyAllRules (applyAllRulesArgs Demo.input))
                   (trace (ai Demo.runtime Demo.strictImports Demo.debugOff
                             Demo.input)))
    by (cbv [In]; left; reflexivity).
  apply (ai_violations_message Demo.runtime Demo.strictImports Demo.debugOff
           Demo.input _ Hin eq_refl).
  discriminate.
Defined.

Lemma ai_violations_stop_the_run_witness :
  let run := ai Demo.runtime Demo.strictImports Demo.debugOn Demo.input in
  invocations KCreateProvider (trace run) = []
  ∧ invocations KGetLanguageModel (trace run) = []
  ∧ invocations KBuildTools (trace run) = []
  ∧ invocations KStreamText (trace run) = []
  ∧ ∃ err, outcome run = inr (ResultError err).
Proof.
  destruct (ai_violations_stop_the_run Demo.runtime Demo.strictImports
              Demo.debugOn Demo.input _ eq_refl)
    as (H1 & H2 & H3 & H4 & H5); [discriminate|].
  repeat split; try assumption.
  apply H5. cbv [In]. do 6 right. left. reflexivity.
Defined.

Lemma ai_tool_error_verbatim_witness :
  invocations KStreamText
    (trace (ai Demo.runtime Demo.brokenToolsImports Demo.debugOn Demo.input)) = []
  ∧ outcome (ai Demo.runtime Demo.brokenToolsImports Demo.debugOn Demo.input)
    = inr (ResultError Demo.toolError).
Proof.
  apply (ai_tool_error_verbatim Demo.runtime Demo.brokenToolsImports Demo.debugOn
           Demo.input None Demo.toolError).
  - cbv [In]. do 9 right. left. reflexivity.
  - reflexivity.
Defined.

(** C3, at a value the Error Translator does not translate.  Handed a
    Symbol, [handleAICallAPIError] takes its last branch, whose template
    literal converts the value to a string: it throws the [TypeError] of
    that conversion and returns no failure. *)
Theorem handleAICallAPIError_throws_on_a_symbol :
  let translate :=
    handleAICallAPIError (Obj := nat) (V := unit) Edge.conversions Demo.debugOff
      (OtherValue (Edge.Symbol "aborted")) in
  outcome translate = inl Edge.noStringForm
  ∧ ¬ (∃ err, outcome translate = inr (ResultError err)).
Proof. split; [reflexivity|]. by intros [err Herr]. Qed.

(** C6, on a run where the dispatch throws a Symbol.  The [catch] clause
    of [ai] receives the Symbol and hands it to the Error Translator, which
    throws in turn: [ai] returns no result, the [TypeError] of the string
    conversion escapes to the caller. *)
Theorem ai_lets_a_thrown_symbol_escape :
  let run := ai Edge.conversions Edge.collaborators Demo.debugOff Edge.symbolInput in
  (∃ args, In (EvStreamText args) (trace run)
           ∧ Edge.symbolTransport args = inl (OtherValue (Edge.Symbol "aborted")))
  ∧ outcome run = inl Edge.noStringForm
  ∧ ¬ (∃ r, outcome run = inr r).
Proof.
  cbv zeta. split; [|split].
  - eexists. split; [|reflexivity]. cbv [In]. do 4 right. left. reflexivity.
  - reflexivity.
  - by intros [r Hr].
Qed.

(** C8, on a request whose configuration holds a BigInt.  With the flag
    off the run succeeds.  With the flag on, the first diagnostic block
    throws when it serialises the configuration: no collaborator is called
    and [ai] returns a failure. *)
Theorem ai_debug_flag_changes_the_result :
  outcome (ai Edge.conversions Edge.collaborators Demo.debugOff Edge.bigintInput)
  = inr (ResultOk (successValue Edge.bigintInput Demo.stream))
  ∧ outcome (ai Edge.conversions Edge.collaborators Demo.debugOn Edge.bigintInput)
    = inr (ResultError
             {| code := AIRunError;
                message := "Unknown error: "
                           +:+ "Do not know how to serialize a BigInt" |})
  ∧ callsOf (ai Edge.conversions Edge.collaborators Demo.debugOn Edge.bigintInput) = []
  ∧ callsOf (ai Edge.conversions Edge.collaborators Demo.debugOff Edge.bigintInput) ≠ [].
Proof. by repeat split. Qed.

Lemma demo_success :
  outcome (ai Demo.runtime Demo.imports Demo.debugOn Demo.input)
  = inr (ResultOk (successValue Demo.input Demo.stream)).
Proof. reflexivity. Qed.

Lemma ai_result_type_witness :
  successValue (JSValue := string) Demo.input Demo.stream !! "type"
  = Some (VString "object").
Proof.
  destruct (ai_result_type Demo.runtime Demo.imports Demo.debugOn Demo.input _
              demo_success) as (_ & Hiff & _).
  apply Hiff. split; [by eexists | by left].
Defined.

Lemma ai_success_fields_witness :
  dom (successValue (JSValue := string) Demo.input Demo.stream)
  = list_to_set ["type"; "providerName"; "fullStream"; "text"; "reasoning";
                 "usage"; "toolCalls"; "providerMetadata"; "sources";
                 "finishReason"; "response"]
  ∧ successValue (JSValue := string) Demo.input Demo.stream !! "object" = None.
Proof.
  exact (ai_success_fields Demo.runtime Demo.imports Demo.debugOn Demo.input _
           demo_success).
Defined.

Lemma demo_dispatch :
  In (EvStreamText
        (streamTextArgs Demo.input
           {| rules := []; rules_messages := messages Demo.input;
              rules_config := Demo.vercelConfig |} 2 None))
     (trace (ai Demo.runtime Demo.imports Demo.debugOff Demo.input)).
Proof. cbv [In]. do 4 right. left. reflexivity. Qed.

(** C7, as the spec words it, fails: the configuration's [model] entry, the
    model identifier, does not reach [streamText] unchanged; the dispatch
    puts the resolved language model under that key. *)
Lemma ai_dispatch_replaces_model :
  ∃ rule args,
    applyAllRules Demo.imports (applyAllRulesArgs Demo.input) = inr rule
    ∧ In (EvStreamText args)
         (trace (ai Demo.runtime Demo.imports Demo.debugOff Demo.input))
    ∧ "model" ≠ "schema"
    ∧ rules_config rule !! "model" = Some "gpt-4o"
    ∧ args !! "model" = Some (VObj 2)
    ∧ args !! "model" ≠ VData <$> rules_config rule !! "model".
Proof.
  eexists _, _. split; [reflexivity|]. split; [apply demo_dispatch|].
  split; [discriminate|]. split; [reflexivity|].
  split; [apply streamTextArgs_model|].
  rewrite streamTextArgs_model. vm_compute. discriminate.
Qed.

Lemma ai_dispatch_config_witness :
  ∃ args,
    In (EvStreamText args)
       (trace (ai Demo.runtime Demo.imports Demo.debugOff Demo.input))
    ∧ args !! "schema" = None
    ∧ args !! "temperature" = Some (VData "0.2").
Proof.
  eexists. split; [apply demo_dispatch|].
  destruct (ai_dispatch_config Demo.runtime Demo.imports Demo.debugOff Demo.input
              _ demo_dispatch) as (rule & Hrule & Hschema & _ & Hpass & _).
  split; [exact Hschema|].
  rewrite Hpass by not_in_list.
  injection Hrule as <-. reflexivity.
Defined.

Lemma data_uri_preview uri :
  Diagnostics.preview (DString ("data:" +:+ uri)) = "data:" +:+ uri.
Proof. unfold Diagnostics.preview. simpl. by destruct uri. Qed.

Lemma image_snapshot d :
  Diagnostics.snapshotOriginal (Demo.imagePart d)
  = SnapImage "image" (Diagnostics.imageInfo d)
  ∧ Diagnostics.snapshotConverted (Demo.imagePart d)
    = SnapImage "image" (Diagnostics.imageInfo d).
Proof. by split. Qed.

(** C9, as the spec words it, fails: the snapshot of an image part given
    as a data URI is not bounded, in either diagnostic block; its [preview]
    entry is the whole URI. *)
Lemma snapshot_unbounded_for_data_uri :
  ¬ (∃ B, ∀ uri info,
        Diagnostics.snapshotOriginal (Demo.imagePart (DString ("data:" +:+ uri)))
        = SnapImage "image" info
        ∨ Diagnostics.snapshotConverted
            (Demo.imagePart (DString ("data:" +:+ uri)))
          = SnapImage "image" info ->
        String.length (ii_preview info) ≤ B).
Proof.
  intros [B H].
  specialize (H (Demo.letters B) _ (or_introl (proj1 (image_snapshot _)))).
  unfold Diagnostics.imageInfo in H. cbn [ii_preview] in H.
  rewrite data_uri_preview, string_length_append, letters_length in H.
  simpl in H. lia.
Qed.

Lemma snapshot_truncation_witness :
  (∃ info,
     Diagnostics.snapshotConverted (Demo.imagePart (DString (Demo.letters 300)))
     = SnapImage "image" info
     ∧ String.length (ii_preview info) ≤ 103)
  ∧ ∃ info,
      Diagnostics.snapshotConverted
        (Demo.imagePart (DString "https://example.com/cat.png"))
      = SnapImage "image" info
      ∧ ii_preview info = "https://example.com/cat.png".
Proof.
  split.
  - destruct (snapshot_truncation
                (Demo.imagePart (DString (Demo.letters 300)))
                Diagnostics.snapshotConverted _
                (or_intror (conj eq_refl eq_refl)))
      as (_ & Himage & _).
    destruct (Himage eq_refl) as (info & Hsnap & Hcut & _).
    exists info. split; [exact Hsnap|].
    by destruct (Hcut _ eq_refl eq_refl).
  - destruct (snapshot_truncation
                (Demo.imagePart (DString "https://example.com/cat.png"))
                Diagnostics.snapshotConverted _
                (or_intror (conj eq_refl eq_refl)))
      as (_ & Himage & _).
    destruct (Himage eq_refl) as (info & Hsnap & _ & Hfull & _).
    exists info. split; [exact Hsnap|].
    by destruct (Hfull _ eq_refl eq_refl).
Defined.

(** ** Further properties of the orchestrator *)

Section Pipeline.

Context {JSValue Obj : Type}.
Variable runtime : @Runtime JSValue.
Variable imports : @Imports JSValue Obj.

(** X1.  When the Provider Adapter Factory returns a failure, [ai] returns
    that very failure, and neither [getLanguageModel] nor [buildTools] nor
    [streamText] is called. *)
Theorem ai_adapter_error_verbatim processEnv (input : @AIInput JSValue Obj)
    args err :
  In (EvCreateProvider args) (trace (ai runtime imports processEnv input)) ->
  createProvider imports args = inr (ResultError err) ->
  let run := ai runtime imports processEnv input in
  outcome run = inr (ResultError err)
  ∧ invocations KGetLanguageModel (trace run) = []
  ∧ invocations KBuildTools (trace run) = []
  ∧ invocations KStreamText (trace run) = [].
Proof.
  intros Hin Hfail run. subst run. apply In_trace_callsOf in Hin; [|done].
  rewrite !invocations_callsOf.
  take_path runtime imports processEnv input; rewrite Hcalls in *; rewrite Ho.
  - destruct Hin.
  - choose_event Hin. subst. open_stages. by same_call.
  - destruct Hp; choose_event Hin; subst; open_stages; repeat same_call; done.
Qed.

(** When the first diagnostic block throws, no collaborator is called. *)
Lemma ai_stopped_at_once processEnv (input : @AIInput JSValue Obj) e :
  debugEnabled processEnv = true ->
  outcome (debugRequest runtime input) = inl e ->
  callsOf (ai runtime imports processEnv input) = [].
Proof.
  intros Hd He. rewrite ai_calls. unfold aiTry. rewrite Hd. cbn [when].
  by rewrite callsOf_bind, He, callsOf_debugRequest.
Qed.

(** X2.  On every run the collaborators are called in the order of the
    pipeline, none skipped and none twice: the calls made are an initial
    part of [applyAllRules], [createProvider], [getLanguageModel],
    [buildTools], [streamText].  [applyAllRules] is the first of them
    unless the first diagnostic block throws, which it can only with the
    flag on; then no collaborator is called at all. *)
Theorem ai_calls_follow_the_pipeline processEnv (input : @AIInput JSValue Obj) :
  let made := List.map callee (callsOf (ai runtime imports processEnv input)) in
  made `prefix_of` [Some KApplyAllRules; Some KCreateProvider;
                    Some KGetLanguageModel; Some KBuildTools; Some KStreamText]
  ∧ (debugEnabled processEnv = false
     ∨ outcome (debugRequest runtime input) = inr tt ->
     head made = Some (Some KApplyAllRules))
  ∧ (debugEnabled processEnv = true ->
     (∃ e, outcome (debugRequest runtime input) = inl e) ->
     made = []).
Proof.
  intros made. subst made. split; [|split].
  - take_path runtime imports processEnv input; rewrite Hcalls;
      [by eexists | by eexists | destruct Hp; by eexists].
  - intros Hok.
    take_path runtime imports processEnv input; rewrite Hcalls;
      [destruct Hok; congruence | done | by destruct Hp].
  - intros Hd [e He]. by rewrite (ai_stopped_at_once _ _ _ Hd He).
Qed.

Lemma streamTextArgs_explicit (input : @AIInput JSValue Obj) rule lm tv :
  let args := streamTextArgs input rule lm tv in
  args !! "model" = Some (VObj lm)
  ∧ args !! "prompt" = Some (optValue VString (prompt input))
  ∧ args !! "messages" = Some (VMessages (rules_messages rule))
  ∧ args !! "tools" = Some (optValue VObj tv)
  ∧ args !! "abortSignal" = Some (optValue VObj (abortSignal input))
  ∧ args !! "experimental_telemetry" = Some (VTelemetry false)
  ∧ args !! "experimental_transform" = Some VSmoothStream
  ∧ args !! "experimental_output"
    = Some (match schema input with
            | Some s => if useSchema (schema input) (output input)
                        then VOutputObject s else VUndefined
            | None => VUndefined
            end).
Proof.
  intros args. subst args. unfold streamTextArgs, objectLiteral. simpl.
  repeat split; rewrite ?lookup_insert_ne by done; by rewrite lookup_insert_eq.
Qed.

Lemma In_callsOf {A} (m : Run (JSValue := JSValue) (Obj := Obj) A) ev :
  In ev (callsOf m) -> In ev (trace m).
Proof. unfold callsOf, calls. intros H. by apply List.filter_In in H as [H _]. Qed.

(** X3.  [streamText] is dispatched only on a run where validation found
    no violation, the adapter was built, the model resolved and the tools
    built, and what is dispatched is the object made from their results. *)
Theorem ai_dispatch_needs_every_step processEnv (input : @AIInput JSValue Obj)
    args :
  In (EvStreamText args) (trace (ai runtime imports processEnv input)) ->
  ∃ rule llm lm tv,
    applyAllRules imports (applyAllRulesArgs input) = inr rule
    ∧ rules rule = []
    ∧ createProvider imports (createProviderArgs input rule) = inr (ResultOk llm)
    ∧ getLanguageModel imports (getLanguageModelArgs input rule llm) = inr lm
    ∧ buildTools imports (rules_config rule !! "tools") = inr (ResultOk tv)
    ∧ args = streamTextArgs input rule lm tv.
Proof.
  intros Hin. apply In_trace_callsOf in Hin; [|done].
  take_path runtime imports processEnv input; rewrite Hcalls in Hin.
  - destruct Hin.
  - by choose_event Hin.
  - destruct Hp; choose_event Hin; subst; open_stages;
      exists rule, llm, lm, tv; by repeat split.
Qed.

(** X4.  The object dispatched to [streamText] carries the language model
    that [getLanguageModel] returned, the messages as the rules rewrote
    them, the tool set that [buildTools] returned, the caller's prompt and
    abort signal, telemetry switched off and the smoothing transform. *)
Theorem ai_dispatch_contents processEnv (input : @AIInput JSValue Obj) args :
  In (EvStreamText args) (trace (ai runtime imports processEnv input)) ->
  ∃ rule llm lm tv,
    applyAllRules imports (applyAllRulesArgs input) = inr rule
    ∧ getLanguageModel imports (getLanguageModelArgs input rule llm) = inr lm
    ∧ buildTools imports (rules_config rule !! "tools") = inr (ResultOk tv)
    ∧ args !! "model" = Some (VObj lm)
    ∧ args !! "messages" = Some (VMessages (rules_messages rule))
    ∧ args !! "tools" = Some (optValue VObj tv)
    ∧ args !! "prompt" = Some (optValue VString (prompt input))
    ∧ args !! "abortSignal" = Some (optValue VObj (abortSignal input))
    ∧ args !! "experimental_telemetry" = Some (VTelemetry false)
    ∧ args !! "experimental_transform" = Some VSmoothStream.
Proof.
  intros Hin. apply In_trace_callsOf in Hin; [|done].
  take_path runtime imports processEnv input; rewrite Hcalls in Hin.
  - destruct Hin.
  - by choose_event Hin.
  - destruct Hp; choose_event Hin; subst; open_stages;
      exists rule, llm, lm, tv;
      destruct (streamTextArgs_explicit input rule lm tv)
        as (? & ? & ? & ? & ? & ? & ? & ?);
      by repeat split.
Qed.

(** X5.  On a successful run the result is tagged ["object"] exactly when
    the dispatch asked the transport for structured output, and then the
    schema it asked with is the caller's; it is tagged ["text"] exactly when
    [experimental_output] was left undefined. *)
Theorem ai_result_type_matches_dispatch processEnv (input : @AIInput JSValue Obj)
    args r :
  In (EvStreamText args) (trace (ai runtime imports processEnv input)) ->
  outcome (ai runtime imports processEnv input) = inr (ResultOk r) ->
  (r !! "type" = Some (VString "object")
   ↔ ∃ s, args !! "experimental_output" = Some (VOutputObject s))
  ∧ (r !! "type" = Some (VString "text")
     ↔ args !! "experimental_output" = Some VUndefined)
  ∧ (∀ s, args !! "experimental_output" = Some (VOutputObject s) ->
          schema input = Some s).
Proof.
  intros Hin Hok. apply In_trace_callsOf in Hin; [|done].
  take_path runtime imports processEnv input; rewrite Hcalls in Hin;
    rewrite Ho in Hok; try no_success.
  destruct Hp; try no_success; choose_event Hin; simplify_eq.
  rewrite successValue_type.
  destruct (streamTextArgs_explicit input rule lm tv)
    as (_ & _ & _ & _ & _ & _ & _ & ->).
  unfold resultType.
  destruct (schema input) as [s|]; simpl;
    [destruct (output input) as [[| |]|]; simpl|].
  all: repeat split; try done; try (intros [? ?]; done); try (by eexists).
  all: intros; by simplify_eq.
Qed.

(** X6.  A successful result names the provider of the credential it was
    given, and its stream fields are, untouched, those of the value the
    transport returned for the dispatched object. *)
Theorem ai_success_hands_on_the_stream processEnv (input : @AIInput JSValue Obj) r :
  outcome (ai runtime imports processEnv input) = inr (ResultOk r) ->
  r !! "providerName" = Some (VString (pk_provider (provider input)))
  ∧ ∃ args streamText result,
      In (EvStreamText args) (trace (ai runtime imports processEnv input))
      ∧ resolveStreamText imports (aiSdkProvider input) = Some streamText
      ∧ streamText args = inr result
      ∧ r !! "fullStream" = Some (VObj (sr_fullStream result))
      ∧ r !! "text" = Some (VObj (sr_text result))
      ∧ r !! "reasoning" = Some (VObj (sr_reasoning result))
      ∧ r !! "usage" = Some (VObj (sr_usage result))
      ∧ r !! "toolCalls" = Some (VObj (sr_toolCalls result))
      ∧ r !! "providerMetadata" = Some (VObj (sr_providerMetadata result))
      ∧ r !! "sources" = Some (VObj (sr_sources result))
      ∧ r !! "finishReason" = Some (VObj (sr_finishReason result))
      ∧ r !! "response" = Some (VObj (sr_response result)).
Proof.
  intros Hok.
  assert (Hin : ∀ ev, In ev (callsOf (ai runtime imports processEnv input)) ->
                      In ev (trace (ai runtime imports processEnv input)))
    by (intros ev; apply In_callsOf).
  take_path runtime imports processEnv input; rewrite Hcalls in Hin;
    rewrite Ho in Hok; try no_success.
  destruct Hp; try no_success; simplify_eq.
  split.
  { unfold successValue, objectLiteral. simpl.
    rewrite ?lookup_insert_ne by done. by rewrite lookup_insert_eq. }
  eexists _, streamText, result.
  split; [apply Hin; simpl; do 4 right; by left|].
  do 2 (split; [done|]).
  unfold successValue, objectLiteral. simpl.
  repeat split; rewrite ?lookup_insert_ne by done; by rewrite lookup_insert_eq.
Qed.

(** X7.  When the caller supplies its own [streamText], the default
    transport plays no part: two runs that differ only in the default
    transport are the same run, event for event. *)
Theorem ai_override_hides_default processEnv (input : @AIInput JSValue Obj)
    f g1 g2 :
  aiSdkProvider input = Some (StreamTextOverride f) ->
  ai runtime (replaceTransport imports g1) processEnv input
  = ai runtime (replaceTransport imports g2) processEnv input.
Proof. intros H. unfold ai, resolveStreamText. by rewrite H. Qed.

(** X8.  An override object whose [streamText] entry is [undefined] hides
    the default transport too: nothing is dispatched and the run is never a
    success.  It returns a failure, unless the value that was caught has no
    string form and the run ends with what its conversion threw. *)
Theorem ai_undefined_override_fails processEnv (input : @AIInput JSValue Obj) :
  aiSdkProvider input = Some StreamTextUndefined ->
  let run := ai runtime imports processEnv input in
  invocations KStreamText (trace run) = []
  ∧ ((∃ err, outcome run = inr (ResultError err))
     ∨ (∃ v thrown, toString runtime v = inl thrown ∧ outcome run = inl thrown)).
Proof.
  intros H run. subst run. rewrite invocations_callsOf.
  assert (Hcaught : ∀ e,
    (∃ err, translated (V := gmap string (@Value JSValue Obj)) runtime e
            = inr (ResultError err))
    ∨ (∃ v thrown, toString runtime v = inl thrown
                   ∧ translated (V := gmap string (@Value JSValue Obj)) runtime e
                     = inl thrown)).
  { intros [m b u q|m|v]; unfold translated; simpl; try (left; by eexists).
    destruct (toString runtime v) as [thrown|s] eqn:Hv;
      [right; by exists v, thrown | left; by eexists]. }
  take_path runtime imports processEnv input; rewrite Hcalls, Ho;
    try (split; [done | apply Hcaught]).
  destruct Hp; try (split; [done | first [apply Hcaught | left; by eexists]]).
  all: unfold resolveStreamText in *; rewrite H in *; done.
Qed.

(** X9.  Once the rules have run, every later step works on what they
    returned, not on the caller's originals: [createProvider] gets the
    rewritten messages and configuration together with the credential's
    token and URL, [getLanguageModel] the adapter that [createProvider]
    built and the rewritten configuration's model, [buildTools] the
    rewritten configuration's tools. *)
Theorem ai_steps_use_the_rewritten_request processEnv
    (input : @AIInput JSValue Obj) :
  let events := trace (ai runtime imports processEnv input) in
  (∀ a, In (EvCreateProvider a) events ->
        ∃ rule,
          applyAllRules imports (applyAllRulesArgs input) = inr rule
          ∧ cp_messages a = rules_messages rule
          ∧ cp_config a = rules_config rule
          ∧ cp_apiKey a = pk_token (provider input)
          ∧ cp_url a = pk_url (provider input))
  ∧ (∀ a, In (EvGetLanguageModel a) events ->
          ∃ rule,
            applyAllRules imports (applyAllRulesArgs input) = inr rule
            ∧ createProvider imports (createProviderArgs input rule)
              = inr (ResultOk (glm_llmProvider a))
            ∧ glm_config a = rules_config rule
            ∧ glm_model a = rules_config rule !! "model")
  ∧ (∀ tools, In (EvBuildTools tools) events ->
              ∃ rule,
                applyAllRules imports (applyAllRulesArgs input) = inr rule
                ∧ tools = rules_config rule !! "tools").
Proof.
  intros events. subst events.
  repeat split; intros a Hin; (apply In_trace_callsOf in Hin; [|done]);
    take_path runtime imports processEnv input; rewrite Hcalls in Hin;
    try (destruct Hin; fail);
    try (choose_event Hin; subst; open_stages; exists rule0; by repeat split);
    destruct Hp; choose_event Hin; subst; open_stages;
    exists rule; by repeat split.
Qed.

(** X10.  A failure that [ai] returns either has the code [AIRunError] or
    is the failure that [createProvider] or [buildTools] returned on this
    run; [ai] makes up no configuration error of its own. *)
Theorem ai_failure_provenance processEnv (input : @AIInput JSValue Obj) err :
  outcome (ai runtime imports processEnv input) = inr (ResultError err) ->
  code err = AIRunError
  ∨ (∃ args,
        In (EvCreateProvider args) (trace (ai runtime imports processEnv input))
        ∧ createProvider imports args = inr (ResultError err))
  ∨ (∃ tools,
        In (EvBuildTools tools) (trace (ai runtime imports processEnv input))
        ∧ buildTools imports tools = inr (ResultError err)).
Proof.
  intros Hfail.
  assert (Hin : ∀ ev, In ev (callsOf (ai runtime imports processEnv input)) ->
                      In ev (trace (ai runtime imports processEnv input)))
    by (intros ev; apply In_callsOf).
  take_path runtime imports processEnv input; rewrite Hcalls in Hin;
    rewrite Ho in Hfail;
    try (left; by apply translated_failure in Hfail).
  destruct Hp; try (left; by apply translated_failure in Hfail);
    simplify_eq; try (by left).
  - right; left. eexists. split; [apply Hin; simpl; right; by left | done].
  - right; right. eexists.
    split; [apply Hin; simpl; do 3 right; by left | done].
Qed.

End Pipeline.

(** ** What the diagnostic flag adds to a run *)

Section Console.

Context {JSValue Obj : Type}.
Variable runtime : @Runtime JSValue.
Variable imports : @Imports JSValue Obj.

Local Abbreviation Run' := (Run (JSValue := JSValue) (Obj := Obj)).

Lemma trace_bind {A B} (m : Run' A) (k : A -> Run' B) :
  trace (bind m k)
  = trace m ++ match outcome m with inl _ => [] | inr a => trace (k a) end.
Proof. destruct m as [t [e|a]]; simpl; [by rewrite app_nil_r | done]. Qed.

Lemma trace_tryCatch {A} (m : Run' A) (h : Thrown -> Run' A) :
  trace (tryCatch m h)
  = trace m ++ match outcome m with inl e => trace (h e) | inr _ => [] end.
Proof. destruct m as [t [e|a]]; simpl; [done | by rewrite app_nil_r]. Qed.

Lemma quiet_ret {A} (a : A) : quiet (ret a : Run' A).
Proof. done. Qed.

Lemma quiet_throw {A} (e : Thrown) : quiet (throw e : Run' A).
Proof. done. Qed.

Lemma quiet_evaluate {A} (r : @Thrown JSValue + A) : quiet (evaluate r : Run' A).
Proof. done. Qed.

Lemma quiet_call {A} (ev : @Event JSValue Obj) (r : @Thrown JSValue + A) :
  isCall ev = true -> quiet (call ev r).
Proof. intros H. unfold quiet. by rewrite callsOf_call. Qed.

Lemma quiet_bind {A B} (m : Run' A) (k : A -> Run' B) :
  quiet m -> (∀ a, quiet (k a)) -> quiet (bind m k).
Proof.
  unfold quiet. intros Hm Hk. rewrite trace_bind, callsOf_bind, <- Hm.
  destruct (outcome m); [done | by rewrite <- Hk].
Qed.

Lemma quiet_tryCatch {A} (m : Run' A) (h : Thrown -> Run' A) :
  quiet m -> (∀ e, quiet (h e)) -> quiet (tryCatch m h).
Proof.
  unfold quiet. intros Hm Hh. rewrite trace_tryCatch, callsOf_tryCatch, <- Hm.
  destruct (outcome m); [by rewrite <- Hh | done].
Qed.

Lemma quiet_when_false (m : Run' unit) : quiet (when false m).
Proof. done. Qed.

Ltac stay_quiet :=
  repeat first
    [ apply quiet_ret | apply quiet_throw | apply quiet_when_false
    | apply quiet_evaluate
    | apply quiet_call; reflexivity
    | apply quiet_bind | intros ?
    | match goal with |- quiet (match ?x with _ => _ end) => destruct x end
    | match goal with |- quiet (if ?x then _ else _) => destruct x end ].

Lemma aiTry_quiet streamText (input : @AIInput JSValue Obj) :
  quiet (aiTry runtime imports streamText false input).
Proof. unfold aiTry, callStreamText. stay_quiet. Qed.

Lemma aiCatch_quiet processEnv (e : @Thrown JSValue) :
  debugEnabled processEnv = false ->
  quiet (aiCatch (Obj := Obj) runtime processEnv false e).
Proof.
  intros Hd. unfold aiCatch, handleAICallAPIError. rewrite Hd. stay_quiet.
Qed.

(** X11.  Unless [DEBUG_AI] is exactly ['true'] (unset, ['1'], ['TRUE'], ...),
    a run of [ai] writes nothing to the console and attaches no observer:
    its events are its collaborator calls and nothing else. *)
Theorem ai_quiet_by_default processEnv (input : @AIInput JSValue Obj) :
  processEnv !! "DEBUG_AI" ≠ Some "true" ->
  trace (ai runtime imports processEnv input)
  = callsOf (ai runtime imports processEnv input).
Proof.
  intros Hoff.
  assert (Hd : debugEnabled processEnv = false)
    by (by apply bool_decide_eq_false).
  unfold ai. rewrite Hd. cbn zeta.
  apply quiet_tryCatch; [apply aiTry_quiet | intros e; by apply aiCatch_quiet].
Qed.

(** The lines the first diagnostic block has written when it returns or
    throws: four lines about the request, then the messages unless their
    serialisation threw, then the configuration unless its serialisation
    threw. *)
Lemma trace_debugRequest (input : @AIInput JSValue Obj) :
  ∃ rest,
    trace (debugRequest runtime input)
    = EvConsoleLog [LString (JS.nl +:+ "=== AI Request Debug Info ===")]
      :: EvConsoleLog [LString "Provider:"; LString (pk_provider (provider input))]
      :: EvConsoleLog [LString "Model:"; LField (getField (config input) "model")]
      :: EvConsoleLog [LString "Messages count:";
                       LNumber (List.length (messages input))]
      :: rest
    ∧ match outcome (debugRequest runtime input) with
      | inr _ => length rest = 2
      | inl _ => length rest < 2
      end.
Proof.
  unfold debugRequest. cbn zeta.
  destruct (stringifyMessages _ _); [eexists; split; [reflexivity | simpl; lia]|].
  destruct (stringifyConfig _ _); eexists; (split; [reflexivity | simpl; lia]).
Qed.

(** With the flag on, what follows the first diagnostic block: the call to
    the Rule Engine when the block returned, the two lines of the [catch]
    clause when it threw. *)
Lemma trace_ai_debugging processEnv (input : @AIInput JSValue Obj) :
  debugEnabled processEnv = true ->
  ∃ rest,
    trace (ai runtime imports processEnv input)
    = trace (debugRequest runtime input)
      ++ match outcome (debugRequest runtime input) with
         | inr _ => EvApplyAllRules (applyAllRulesArgs input) :: rest
         | inl e =>
             EvConsoleLog [LString (JS.nl +:+ "=== AI Request Error ===")]
             :: EvConsoleLog [LString "Error:"; LThrown e] :: rest
         end.
Proof.
  intros Hd. unfold ai. rewrite Hd. cbn zeta.
  rewrite trace_tryCatch. unfold aiTry. cbn [when].
  rewrite trace_bind, outcome_bind.
  destruct (outcome (debugRequest runtime input)) as [e|[]].
  - rewrite app_nil_r. unfold aiCatch. rewrite trace_bind. simpl.
    by eexists.
  - rewrite trace_bind. cbn [trace call fst]. rewrite <- !app_assoc.
    cbn [app]. by eexists.
Qed.

(** X12.  With the flag on, the run starts with the lines of the first
    diagnostic block, written before the Rule Engine is called: the banner,
    the provider, the model and the number of messages on every run.  When
    the block returns, it has written six lines and the call to the Rule
    Engine comes next.  When it throws, at the serialisation of the
    messages or of the configuration, it has written fewer, the thrown
    value is logged next and no collaborator is called. *)
Theorem ai_logs_request_first processEnv (input : @AIInput JSValue Obj) :
  debugEnabled processEnv = true ->
  let run := ai runtime imports processEnv input in
  let block := debugRequest runtime input in
  (∃ rest,
     trace run
     = EvConsoleLog [LString (JS.nl +:+ "=== AI Request Debug Info ===")]
       :: EvConsoleLog [LString "Provider:";
                        LString (pk_provider (provider input))]
       :: EvConsoleLog [LString "Model:"; LField (getField (config input) "model")]
       :: EvConsoleLog [LString "Messages count:";
                        LNumber (List.length (messages input))]
       :: rest)
  ∧ (outcome block = inr tt ->
     length (trace block) = 6
     ∧ ∃ rest,
         trace run
         = trace block ++ EvApplyAllRules (applyAllRulesArgs input) :: rest)
  ∧ (∀ e, outcome block = inl e ->
          length (trace block) < 6
          ∧ callsOf run = []
          ∧ ∃ rest,
              trace run
              = trace block
                ++ EvConsoleLog [LString (JS.nl +:+ "=== AI Request Error ===")]
                   :: EvConsoleLog [LString "Error:"; LThrown e] :: rest).
Proof.
  intros Hd run block.
  destruct (trace_ai_debugging processEnv input Hd) as (rest' & Hrun).
  fold run block in Hrun.
  destruct (trace_debugRequest input) as (rest & Hblock & Hrest).
  fold block in Hblock, Hrest.
  split; [|split].
  - rewrite Hrun, Hblock. by eexists.
  - intros Hok. rewrite Hok in Hrun, Hrest. split.
    + rewrite Hblock. simpl. by rewrite Hrest.
    + by eexists.
  - intros e He. rewrite He in Hrun, Hrest. split; [|split].
    + rewrite Hblock. simpl. lia.
    + by apply (ai_stopped_at_once runtime imports processEnv input e).
    + by eexists.
Qed.

(** X13.  With the flag on, a value thrown by one of the steps is itself
    written to the console, on an "Error:" line, before it is translated. *)
Theorem ai_logs_the_thrown_value processEnv (input : @AIInput JSValue Obj) e :
  debugEnabled processEnv = true ->
  raises runtime imports input (debugEnabled processEnv)
    (trace (ai runtime imports processEnv input)) e ->
  In (EvConsoleLog [LString "Error:"; LThrown e])
     (trace (ai runtime imports processEnv input)).
Proof.
  intros Hd Hraise. apply raises_aiTry in Hraise.
  unfold ai. cbn zeta. rewrite trace_tryCatch, Hraise.
  apply in_or_app. right. rewrite Hd. unfold aiCatch. rewrite trace_bind. simpl.
  right. by left.
Qed.

End Console.

(** ** Further properties of the Error Translator *)

Section Translator.

Context {JSValue Obj : Type}.
Variable runtime : @Runtime JSValue.

(** X14.  A transport error that carries no response body is reported with
    the word "undefined" in the body's place. *)
Theorem handleAICallAPIError_missing_body {V : Type} processEnv m url body :
  outcome (handleAICallAPIError (Obj := Obj) (V := V) runtime processEnv
             (APICallError m None url body))
  = inr (ResultError
           {| code := AIRunError;
              message := "Error: " +:+ m +:+ " and response body: undefined" |}).
Proof. by rewrite handleAICallAPIError_outcome. Qed.

(** X15.  The Error Translator writes to the console only when the flag is
    on and the value is a transport error; it then writes six lines, among
    them the request's URL and body values.  It never calls a
    collaborator. *)
Theorem handleAICallAPIError_console {V : Type} processEnv :
  let translate e :=
    handleAICallAPIError (Obj := Obj) (V := V) runtime processEnv e in
  (∀ e, callsOf (translate e) = [])
  ∧ (∀ e, debugEnabled processEnv = false -> trace (translate e) = [])
  ∧ (∀ m, trace (translate (ErrorValue m)) = [])
  ∧ (∀ v, trace (translate (OtherValue v)) = [])
  ∧ (∀ m b url body,
       debugEnabled processEnv = true ->
       length (trace (translate (APICallError m b url body))) = 6
       ∧ In (EvConsoleLog [LString "URL:"; LString url])
            (trace (translate (APICallError m b url body)))
       ∧ In (EvConsoleLog [LString "Request Body:"; LField (VData body)])
            (trace (translate (APICallError m b url body)))).
Proof.
  intros translate. subst translate. cbv beta.
  split; [intros e; apply handleAICallAPIError_calls|].
  unfold handleAICallAPIError.
  split; [intros e ->; simpl; by destruct (errorMessage runtime e)|].
  split; [intros m; by destruct (debugEnabled processEnv)|].
  split.
  { intros v. simpl.
    destruct (debugEnabled processEnv); simpl; by destruct (toString runtime v). }
  intros m b url body ->. simpl. split; [done|].
  split; [do 3 right; by left | do 4 right; by left].
Qed.

End Translator.

(** ** Further properties of the diagnostic snapshot *)

Lemma string_append_empty (s : string) : s +:+ "" = s.
Proof.
  induction s as [|c s IH]; [done|].
  change (String c s +:+ "") with (String c (s +:+ "")). by rewrite IH.
Qed.

Lemma substring0_short n (s : string) :
  String.length s ≤ n -> JS.substring0 n s = s.
Proof.
  unfold JS.substring0. revert s.
  induction n as [|n IH]; intros [|c s]; simpl; try done; try lia.
  intros H. rewrite IH; [done | lia].
Qed.

Lemma substring0_long n (s : string) :
  n ≤ String.length s -> String.length (JS.substring0 n s) = n.
Proof.
  unfold JS.substring0. revert s.
  induction n as [|n IH]; intros [|c s]; simpl; try done; try lia.
  intros H. rewrite IH; [done | lia].
Qed.

Lemma substring0_prefix n (s : string) :
  String.prefix (JS.substring0 n s) s = true.
Proof.
  unfold JS.substring0. revert s.
  induction n as [|n IH]; intros [|c s]; simpl; try done.
  destruct (ascii_dec c c); [apply IH | done].
Qed.

(** X16.  A text of at most 100 characters is logged as it is; a longer
    one is logged as its first 100 characters followed by "...", 103
    characters in all; a missing text is logged as "undefined". *)
Theorem text_truncation_is_exact (s : string) :
  (String.length s ≤ 100 -> Diagnostics.textField (Some s) = s)
  ∧ (100 < String.length s ->
     Diagnostics.textField (Some s) = JS.substring0 100 s +:+ "..."
     ∧ String.length (Diagnostics.textField (Some s)) = 103
     ∧ String.prefix (JS.substring0 100 s) s = true)
  ∧ Diagnostics.textField None = "undefined".
Proof.
  unfold Diagnostics.textField, JS.truncate100. repeat split.
  - intros H. rewrite substring0_short by done.
    destruct (Nat.ltb_spec 100 (String.length s)); [lia|].
    apply string_append_empty.
  - destruct (Nat.ltb_spec 100 (String.length s)); [done | lia].
  - destruct (Nat.ltb_spec 100 (String.length s)); [|lia].
    rewrite string_length_append, substring0_long by lia. done.
  - apply substring0_prefix.
Qed.

(** X17.  String image data that is no URL gets "..." appended even when
    nothing was cut: a short string is logged whole, followed by "...". *)
Theorem short_image_string_is_marked (s : string) :
  Data.isURL (DString s) = false ->
  String.length s ≤ 100 ->
  Diagnostics.preview (DString s) = s +:+ "...".
Proof.
  simpl. intros -> H. by rewrite substring0_short.
Qed.

(** X18.  The [size] entry is the length of a string payload, the number
    of bytes of a binary one, and 0 for a URL object or a missing payload;
    [present] is false only for a missing payload and for the empty
    string. *)
Theorem payload_size_and_presence :
  (∀ s, Data.size (DString s) = String.length s)
  ∧ (∀ b, Data.size (DBuffer b) = length b
          ∧ Data.size (DUint8Array b) = length b
          ∧ Data.size (DArrayBuffer b) = length b)
  ∧ (∀ href, Data.size (DURL href) = 0)
  ∧ Data.size DUndefined = 0
  ∧ (∀ d, Data.truthy d = false ↔ d = DUndefined ∨ d = DString "").
Proof.
  split; [apply size_string|]. split; [apply size_bytes|].
  repeat split; try done.
  - destruct d as [|[|c s]| | | |]; simpl; intros; try done; by eauto.
  - by intros [-> | ->].
Qed.

(** X19.  The snapshot of a file or of binary image data depends on the
    payload only through its kind and its length: two payloads of the same
    kind and length, whatever their content, are logged alike. *)
Theorem payload_content_is_not_logged :
  (∀ s1 s2 mimeType,
     String.length s1 = String.length s2 ->
     Diagnostics.fileInfo (DString s1) mimeType
     = Diagnostics.fileInfo (DString s2) mimeType)
  ∧ (∀ (b1 b2 : list Byte.byte) mimeType,
       length b1 = length b2 ->
       Diagnostics.fileInfo (DBuffer b1) mimeType
       = Diagnostics.fileInfo (DBuffer b2) mimeType
       ∧ Diagnostics.fileInfo (DUint8Array b1) mimeType
         = Diagnostics.fileInfo (DUint8Array b2) mimeType
       ∧ Diagnostics.fileInfo (DArrayBuffer b1) mimeType
         = Diagnostics.fileInfo (DArrayBuffer b2) mimeType
       ∧ Diagnostics.imageInfo (DBuffer b1) = Diagnostics.imageInfo (DBuffer b2)
       ∧ Diagnostics.imageInfo (DUint8Array b1)
         = Diagnostics.imageInfo (DUint8Array b2)
       ∧ Diagnostics.imageInfo (DArrayBuffer b1)
         = Diagnostics.imageInfo (DArrayBuffer b2)).
Proof.
  split.
  - intros s1 s2 m H. unfold Diagnostics.fileInfo.
    rewrite !size_string. simpl. by rewrite H.
  - intros b1 b2 m H. unfold Diagnostics.fileInfo, Diagnostics.imageInfo.
    destruct (size_bytes b1) as (-> & -> & ->).
    destruct (size_bytes b2) as (-> & -> & ->).
    simpl. by rewrite H.
Qed.

(** X20.  The block that runs after the rules reads a file's payload from
    [data] and falls back to [file] when [data] is missing or empty; on
    every part that is no file, and on a file without [data], the two
    blocks log the same snapshot. *)
Theorem blocks_agree_without_data (c : ContentPart) :
  part_type c ≠ "file" ∨ Data.truthy (part_data c) = false ->
  Diagnostics.snapshotConverted c = Diagnostics.snapshotOriginal c.
Proof.
  unfold Diagnostics.snapshotConverted, Diagnostics.snapshotOriginal,
    Diagnostics.snapshotWith, Data.orData.
  intros [Hne | ->]; [|done].
  destruct (String.eqb_spec (part_type c) "file"); [done|].
  by repeat case_match.
Qed.

Lemma snapshotWith_type fileOf c :
  snapshotType (Diagnostics.snapshotWith fileOf c) = part_type c.
Proof. unfold Diagnostics.snapshotWith. by repeat case_match. Qed.

(** X21.  The snapshot of a message keeps its role and, for a message made
    of parts, has one entry per part, in order, each with its part's type;
    a part that is neither text, image nor file (a tool call, say) is
    logged by its type alone. *)
Theorem snapshotMessage_keeps_the_shape {JSValue : Type}
    (msg : @Message JSValue) parts :
  msg_content msg = ContentArray parts ->
  ∀ snapshot,
    snapshot = Diagnostics.snapshotOriginal
    ∨ snapshot = Diagnostics.snapshotConverted ->
    snap_role (snapshotMessage snapshot msg) = msg_role msg
    ∧ (∃ snaps,
         snap_content (snapshotMessage snapshot msg) = inl (inr snaps)
         ∧ List.map snapshotType snaps = List.map part_type parts)
    ∧ (∀ c, part_type c ≠ "text" -> part_type c ≠ "image" ->
            part_type c ≠ "file" -> snapshot c = SnapBare (part_type c)).
Proof.
  intros Hparts snapshot Hs. unfold snapshotMessage. rewrite Hparts. simpl.
  split; [done|]. split.
  - eexists. split; [done|]. rewrite List.map_map. apply List.map_ext.
    intros c. destruct Hs as [-> | ->]; apply snapshotWith_type.
  - intros c H1 H2 H3.
    destruct Hs as [-> | ->];
      unfold Diagnostics.snapshotOriginal, Diagnostics.snapshotConverted,
        Diagnostics.snapshotWith;
      destruct (String.eqb_spec (part_type c) "text"); try done;
      destruct (String.eqb_spec (part_type c) "image"); try done;
      by destruct (String.eqb_spec (part_type c) "file").
Qed.

(** ** Properties of the sign-up handler *)

Section SignUp.

Context {Workspace Err : Type}.
Variable services : @Setup.Services Workspace Err.

(** X22.  With e-mail sign-up switched off the handler throws the
    [ForbiddenError] before anything else: no account is created, no session
    set, no redirection made. *)
Theorem handler_refuses_when_disabled (input : Setup.SetupInput) :
  Setup.disableEmail services = true ->
  fst (Setup.handler services input) = []
  ∧ ∃ message, snd (Setup.handler services input)
               = Setup.Threw (Setup.ForbiddenError message).
Proof. intros H. unfold Setup.handler. rewrite H. split; [done | by eexists]. Qed.

(** X23.  A session is set only after [setupService] succeeded, with the
    id and e-mail of the user it created and its workspace; a redirection
    happens only after [setSession] succeeded.  So a refused or failed
    sign-up leaves no session and redirects nowhere. *)
Theorem handler_sets_the_session_of_the_created_user (input : Setup.SetupInput) :
  let events := fst (Setup.handler services input) in
  (∀ sessionData,
     In (Setup.EvSetSession sessionData) events ->
     ∃ created,
       Setup.setupService services input = inr (ResultOk created)
       ∧ Setup.session_user_id sessionData = Setup.user_id (Setup.user created)
       ∧ Setup.session_user_email sessionData
         = Setup.user_email (Setup.user created)
       ∧ Setup.session_workspace sessionData = Setup.workspace created)
  ∧ (∀ url,
       In (Setup.EvRedirect url) events ->
       ∃ sessionData,
         In (Setup.EvSetSession sessionData) events
         ∧ Setup.setSession services sessionData = inr tt).
Proof.
  intros events. subst events. unfold Setup.handler.
  destruct (Setup.disableEmail services); [by split; intros ? []|].
  destruct (Setup.setupService services input) as [e|[created|e]] eqn:Hs;
    simpl; split; intros x Hin; choose_event Hin.
  all: destruct (Setup.setSession services (Setup.sessionFor created))
         as [e|[]] eqn:Hsession; simpl in Hin; choose_event Hin; subst.
  all: try (exists created; by repeat split).
  exists (Setup.sessionFor created). split; [right; by left | done].
Qed.

(** X24.  The handler never redirects to a place of the caller's choosing
    unless [isLatitudeUrl] accepts it: the target is the dashboard, or it is
    the non-empty [returnTo] that [isLatitudeUrl] accepted; and an accepted
    [returnTo] is where a successful sign-up goes. *)
Theorem handler_redirects_safely (input : Setup.SetupInput) url :
  snd (Setup.handler services input) = Setup.Redirected url ->
  (url = Setup.dashboardRoot services
   ∨ (Setup.returnTo input = Some url ∧ url ≠ ""
      ∧ Setup.isLatitudeUrl services url = true))
  ∧ (∀ wanted,
       Setup.returnTo input = Some wanted -> wanted ≠ "" ->
       Setup.isLatitudeUrl services wanted = true -> url = wanted).
Proof.
  unfold Setup.handler.
  destruct (Setup.disableEmail services); [done|].
  destruct (Setup.setupService services input) as [e|[created|e]]; try done.
  destruct (Setup.setSession services _) as [e|u]; [done|].
  simpl. intros [= <-]. unfold Setup.redirectTarget, Setup.truthyString.
  destruct (Setup.returnTo input) as [[|c s]|]; simpl.
  - split; [by left | by intros ? [= <-]].
  - destruct (Setup.isLatitudeUrl services (String c s)) eqn:Hok; simpl.
    + split; [right; by repeat split | by intros ? [= <-]].
    + split; [by left | intros ? [= <-] _ ?; congruence].
  - split; [by left | done].
Qed.

(** X25.  When [setupService] refuses the sign-up, by a failure result or
    by throwing, the handler throws that very error, sets no session and
    makes no redirection. *)
Theorem handler_passes_the_service_error_on (input : Setup.SetupInput) e :
  Setup.disableEmail services = false ->
  Setup.setupService services input = inr (ResultError e)
  ∨ Setup.setupService services input = inl e ->
  Setup.handler services input
  = ([Setup.EvSetupService input], Setup.Threw (Setup.Rejected e)).
Proof.
  intros Hd Hs. unfold Setup.handler. rewrite Hd. by destruct Hs as [-> | ->].
Qed.

End SignUp.

(** ** The regular expressions of the e-mail refinement *)

Section RegexFacts.

Import Regex.

Lemma append_cons c (s1 s2 : string) :
  String c s1 +:+ s2 = String c (s1 +:+ s2).
Proof. reflexivity. Qed.

Lemma append_nil (s : string) : "" +:+ s = s.
Proof. reflexivity. Qed.

Lemma append_assoc (s1 s2 s3 : string) :
  (s1 +:+ s2) +:+ s3 = s1 +:+ (s2 +:+ s3).
Proof.
  induction s1 as [|c s1 IH]; [done|].
  rewrite !append_cons. by rewrite IH.
Qed.

Lemma append_eq_empty (s1 s2 : string) :
  s1 +:+ s2 = "" -> s1 = "" ∧ s2 = "".
Proof. destruct s1; [by rewrite append_nil | by rewrite append_cons]. Qed.

Lemma append_eq_cons c (s s1 s2 : string) :
  s1 +:+ s2 = String c s ->
  (s1 = "" ∧ s2 = String c s) ∨ (∃ s1', s1 = String c s1' ∧ s = s1' +:+ s2).
Proof.
  destruct s1 as [|c1 s1]; [by left|].
  rewrite append_cons. intros [= -> <-]. right. by eexists.
Qed.

Lemma Matches_empty r : Matches r "" -> nullable r = true.
Proof.
  intros H. remember "" as s eqn:Hs.
  induction H; simpl; try done.
  - apply append_eq_empty in Hs as [-> ->]. by rewrite IHMatches1, IHMatches2.
  - by rewrite IHMatches.
  - rewrite IHMatches by done. by destruct (nullable r1).
Qed.

Lemma nullable_Matches r : nullable r = true -> Matches r "".
Proof.
  induction r; simpl; intros H; try done.
  - constructor.
  - apply andb_prop in H as [H1 H2].
    change "" with ("" +:+ ""). constructor; auto.
  - apply orb_prop in H as [H|H]; [apply MAltL | apply MAltR]; auto.
  - constructor.
Qed.

Lemma Matches_star_cons r c s :
  Matches (Star r) (String c s) ->
  ∃ s1 s2, s = s1 +:+ s2 ∧ Matches r (String c s1) ∧ Matches (Star r) s2.
Proof.
  intros H. remember (Star r) as r' eqn:Hr. remember (String c s) as s' eqn:Hs.
  induction H; try done. injection Hr as ->.
  apply append_eq_cons in Hs as [[-> ->] | (s1' & -> & ->)].
  - by apply IHMatches2.
  - by exists s1', s2.
Qed.

Lemma deriv_sound c r s : Matches (deriv c r) s -> Matches r (String c s).
Proof.
  revert s. induction r; simpl; intros s H.
  - inversion H.
  - inversion H.
  - destruct (p c) eqn:Hp; inversion H; subst. by constructor.
  - assert (Hcat : ∀ s, Matches (Cat (deriv c r1) r2) s ->
                        Matches (Cat r1 r2) (String c s)).
    { intros s' H'. inversion H'; subst. rewrite <- append_cons.
      constructor; auto. }
    destruct (nullable r1) eqn:Hn; [|by apply Hcat].
    inversion H; subst; [by apply Hcat|].
    rewrite <- (append_nil (String c s)).
    constructor; [by apply nullable_Matches | auto].
  - inversion H; subst; [apply MAltL | apply MAltR]; auto.
  - inversion H; subst. rewrite <- append_cons. constructor; auto.
Qed.

Lemma deriv_complete c r s : Matches r (String c s) -> Matches (deriv c r) s.
Proof.
  revert s. induction r; simpl; intros s H.
  - inversion H.
  - inversion H.
  - inversion H as [|? ? Hp| | | | |]; subst. rewrite Hp. constructor.
  - inversion H as [| |? ? s1 s2 H1 H2| | | |]; subst.
    match goal with
    | Heq : _ +:+ _ = String _ _ |- _ =>
        apply append_eq_cons in Heq as [[-> ->] | (s1' & -> & ->)]
    end.
    + rewrite (Matches_empty _ H1). apply MAltR. auto.
    + destruct (nullable r1); [apply MAltL|]; constructor; auto.
  - inversion H; subst; [apply MAltL | apply MAltR]; auto.
  - apply Matches_star_cons in H as (s1 & s2 & -> & H1 & H2).
    constructor; auto.
Qed.

(** The matcher decides the relation. *)
Lemma matches_spec r s : matches r s = true ↔ Matches r s.
Proof.
  revert r. induction s as [|c s IH]; intros r; simpl.
  - split; [apply nullable_Matches | apply Matches_empty].
  - rewrite IH. split; [apply deriv_sound | apply deriv_complete].
Qed.

Lemma Matches_star_class p s :
  Matches (Star (Class p)) s ↔ allChars p s = true.
Proof.
  split.
  - revert p. induction s as [|c s IH]; intros p H; [done|].
    apply Matches_star_cons in H as (s1 & s2 & -> & H1 & H2).
    inversion H1; subst. rewrite append_nil in *.
    simpl. rewrite IH by done. by rewrite andb_true_r.
  - induction s as [|c s IH]; simpl; intros H; [constructor|].
    apply andb_prop in H as [Hc Hs].
    change (String c s) with (String c "" +:+ s).
    constructor; [by constructor | auto].
Qed.

Lemma Matches_plus_class p s :
  Matches (Plus (Class p)) s ↔ s ≠ "" ∧ allChars p s = true.
Proof.
  unfold Plus. split.
  - intros H. inversion H as [| |? ? s1 s2 H1 H2| | | |]; subst.
    inversion H1; subst. rewrite append_cons. split; [done|].
    simpl. apply Matches_star_class in H2. rewrite append_nil.
    by rewrite H2, andb_true_r.
  - intros [Hne H]. destruct s as [|c s]; [done|].
    apply andb_prop in H as [Hc Hs].
    change (String c s) with (String c "" +:+ s).
    constructor; [by constructor | by apply Matches_star_class].
Qed.

Lemma Matches_char x s :
  Matches (Class (exactly x)) s ↔ s = String x "".
Proof.
  split.
  - intros H. inversion H as [|? ? Hp| | | | |]; subst. unfold exactly in Hp.
    by apply Ascii.eqb_eq in Hp as ->.
  - intros ->. constructor. apply Ascii.eqb_refl.
Qed.

Lemma Matches_cat r1 r2 s :
  Matches (Cat r1 r2) s
  ↔ ∃ s1 s2, s = s1 +:+ s2 ∧ Matches r1 s1 ∧ Matches r2 s2.
Proof.
  split.
  - intros H. inversion H; subst. by eexists _, _.
  - intros (s1 & s2 & -> & H1 & H2). by constructor.
Qed.

Lemma anyChar_app p (s1 s2 : string) :
  anyChar p (s1 +:+ s2) = anyChar p s1 || anyChar p s2.
Proof.
  induction s1 as [|c s1 IH]; [done|].
  rewrite append_cons. simpl. by rewrite IH, orb_assoc.
Qed.

Lemma allChars_app p (s1 s2 : string) :
  allChars p (s1 +:+ s2) = allChars p s1 && allChars p s2.
Proof.
  induction s1 as [|c s1 IH]; [done|].
  rewrite append_cons. simpl. by rewrite IH, andb_assoc.
Qed.

Lemma allChars_none p q (s : string) :
  (∀ c, q c = true -> p c = false) ->
  allChars p s = true -> anyChar q s = false.
Proof.
  intros Hpq. induction s as [|c s IH]; simpl; [done|].
  intros H. apply andb_prop in H as [Hc Hs].
  rewrite IH by done. destruct (q c) eqn:Hq; [|done].
  by rewrite (Hpq _ Hq) in Hc.
Qed.

End RegexFacts.

(** ** Properties of the e-mail refinement *)

Section EmailRefinement.

Import Regex Email.

Lemma upperCaseAddress_spec (s : string) :
  matches upperCaseAddress s = true
  ↔ ∃ l d, s = l +:+ "@" +:+ d ∧ l ≠ "" ∧ d ≠ ""
           ∧ allChars localClass l = true ∧ allChars domainClass d = true.
Proof.
  rewrite matches_spec. unfold upperCaseAddress. split.
  - intros H.
    apply Matches_cat in H as (l & rest & -> & Hl & H).
    apply Matches_cat in H as (at' & d & -> & Hat & Hd).
    apply Matches_char in Hat as ->.
    apply Matches_plus_class in Hl as [? ?].
    apply Matches_plus_class in Hd as [? ?].
    by exists l, d.
  - intros (l & d & -> & ? & ? & ? & ?).
    constructor; [by apply Matches_plus_class|].
    constructor; [by apply Matches_char | by apply Matches_plus_class].
Qed.

Lemma numberedSubaddress_spec (s : string) :
  matches numberedSubaddress s = true
  ↔ ∃ l n d, s = l +:+ "+" +:+ n +:+ "@" +:+ d
             ∧ l ≠ "" ∧ n ≠ "" ∧ d ≠ ""
             ∧ allChars notPlus l = true ∧ allChars digit n = true
             ∧ allChars domainClassIgnoringCase d = true.
Proof.
  rewrite matches_spec. unfold numberedSubaddress. split.
  - intros H.
    apply Matches_cat in H as (l & rest & -> & Hl & H).
    apply Matches_cat in H as (plus & rest' & -> & Hplus & H).
    apply Matches_cat in H as (n & rest'' & -> & Hn & H).
    apply Matches_cat in H as (at' & d & -> & Hat & Hd).
    apply Matches_char in Hplus as ->. apply Matches_char in Hat as ->.
    apply Matches_plus_class in Hl as [? ?].
    apply Matches_plus_class in Hn as [? ?].
    apply Matches_plus_class in Hd as [? ?].
    by exists l, n, d.
  - intros (l & n & d & -> & ? & ? & ? & ? & ? & ?).
    constructor; [by apply Matches_plus_class|].
    constructor; [by apply Matches_char|].
    constructor; [by apply Matches_plus_class|].
    constructor; [by apply Matches_char | by apply Matches_plus_class].
Qed.

Lemma refinement_false (email : string) :
  refinement email = false
  ↔ (∃ l d, email = l +:+ "@" +:+ d ∧ l ≠ "" ∧ d ≠ ""
            ∧ allChars localClass l = true ∧ allChars domainClass d = true)
    ∨ (∃ l n d, email = l +:+ "+" +:+ n +:+ "@" +:+ d
                ∧ l ≠ "" ∧ n ≠ "" ∧ d ≠ ""
                ∧ allChars notPlus l = true ∧ allChars digit n = true
                ∧ allChars domainClassIgnoringCase d = true).
Proof.
  rewrite <- upperCaseAddress_spec, <- numberedSubaddress_spec.
  unfold refinement.
  destruct (matches upperCaseAddress email),
    (matches numberedSubaddress email); simpl; split; try done; auto.
  by intros [? | ?].
Qed.

(** X26.  The refinement turns an address down in exactly two cases: it is
    written without any lower-case letter, as one or more characters of
    [A-Z0-9_!#$%&'*+/=?`{|}~^.-], an at sign and one or more of [A-Z0-9.-];
    or it is a numbered subaddress, one or more characters other than a plus
    sign, a plus sign, one or more digits, an at sign and one or more of
    [A-Za-z0-9.-]. *)
Theorem refinement_rejects_exactly (email : string) :
  refinement email = false
  ↔ (∃ l d, email = l +:+ "@" +:+ d ∧ l ≠ "" ∧ d ≠ ""
            ∧ allChars localClass l = true ∧ allChars domainClass d = true)
    ∨ (∃ l n d, email = l +:+ "+" +:+ n +:+ "@" +:+ d
                ∧ l ≠ "" ∧ n ≠ "" ∧ d ≠ ""
                ∧ allChars notPlus l = true ∧ allChars digit n = true
                ∧ allChars domainClassIgnoringCase d = true).
Proof. apply refinement_false. Qed.

Lemma lowerCase_outside c :
  lowerCase c = true ->
  localClass c = false ∧ domainClass c = false ∧ exactly "@"%char c = false.
Proof.
  destruct c as [[] [] [] [] [] [] [] []]; vm_compute; intros H;
    first [discriminate H | done].
Qed.

(** X27.  An address that has a lower-case letter and no plus sign passes
    the refinement. *)
Theorem refinement_accepts_lower_case (email : string) :
  anyChar lowerCase email = true ->
  anyChar (exactly "+"%char) email = false ->
  refinement email = true.
Proof.
  intros Hlower Hplus.
  destruct (refinement email) eqn:Hr; [done|]. exfalso.
  apply refinement_false in Hr
    as [(l & d & -> & _ & _ & Hl & Hd) | (l & n & d & -> & _)].
  - rewrite !anyChar_app in Hlower. simpl in Hlower.
    rewrite (allChars_none localClass lowerCase l) in Hlower;
      [|intros c Hc; by apply lowerCase_outside|done].
    rewrite (allChars_none domainClass lowerCase d) in Hlower;
      [|intros c Hc; by apply lowerCase_outside|done].
    done.
  - rewrite !anyChar_app in Hplus. simpl in Hplus.
    by rewrite orb_true_r in Hplus.
Qed.

End EmailRefinement.


(** ** The further properties on concrete runs *)

Example refinement_examples :
  Email.refinement "jane@example.com" = true
  ∧ Email.refinement "JANE@EXAMPLE.COM" = false
  ∧ Email.refinement "jane+1@example.com" = false
  ∧ Email.refinement "jane+news@example.com" = true.
Proof. by vm_compute. Qed.

Lemma demo_dispatch_debug :
  In (EvStreamText (streamTextArgs Demo.input Scenario.accepted 2 None))
     (trace (ai Demo.runtime Demo.imports Demo.debugOn Demo.input)).
Proof. cbv [In]. do 13 right. left. reflexivity. Qed.

Lemma ai_adapter_error_verbatim_witness :
  let run := ai Demo.runtime Scenario.badCredentialImports Demo.debugOn
               Demo.input in
  outcome run = inr (ResultError Scenario.configError)
  ∧ invocations KGetLanguageModel (trace run) = []
  ∧ invocations KBuildTools (trace run) = []
  ∧ invocations KStreamText (trace run) = [].
Proof.
  eapply (ai_adapter_error_verbatim Demo.runtime Scenario.badCredentialImports
            Demo.debugOn Demo.input).
  - cbv [In]. do 7 right. left. reflexivity.
  - reflexivity.
Defined.

Lemma ai_dispatch_needs_every_step_witness :
  ∃ rule,
    applyAllRules Demo.imports (applyAllRulesArgs Demo.input) = inr rule
    ∧ rules rule = [].
Proof.
  destruct (ai_dispatch_needs_every_step Demo.runtime Demo.imports Demo.debugOff
              Demo.input _ demo_dispatch)
    as (rule & _ & _ & _ & Hrule & Hnone & _).
  by exists rule.
Defined.

Lemma ai_dispatch_contents_witness :
  ∃ args,
    In (EvStreamText args)
       (trace (ai Demo.runtime Demo.imports Demo.debugOff Demo.input))
    ∧ args !! "model" = Some (VObj 2)
    ∧ args !! "experimental_telemetry" = Some (VTelemetry false).
Proof.
  eexists. split; [apply demo_dispatch|].
  destruct (ai_dispatch_contents Demo.runtime Demo.imports Demo.debugOff
              Demo.input _ demo_dispatch)
    as (rule & llm & lm & tv & _ & Hlm & _ & Hmodel & _ & _ & _ & _ & Htel & _).
  injection Hlm as <-. by split.
Defined.

Lemma ai_result_type_matches_dispatch_witness :
  ∃ s, streamTextArgs Demo.input Scenario.accepted 2 None
       !! "experimental_output" = Some (VOutputObject s).
Proof.
  destruct (ai_result_type_matches_dispatch Demo.runtime Demo.imports
              Demo.debugOn Demo.input _ _ demo_dispatch_debug demo_success)
    as (Hobject & _).
  apply Hobject. apply successValue_type.
Defined.

Lemma ai_success_hands_on_the_stream_witness :
  successValue (JSValue := string) Demo.input Demo.stream !! "providerName"
  = Some (VString "openai").
Proof.
  destruct (ai_success_hands_on_the_stream Demo.runtime Demo.imports
              Demo.debugOn Demo.input _ demo_success) as [Hname _].
  exact Hname.
Defined.

Lemma ai_override_hides_default_witness :
  ai Demo.runtime
     (replaceTransport Demo.imports (fun _ => inl Demo.rateLimited))
     Demo.debugOn
     (Scenario.withProvider (Some (StreamTextOverride Scenario.fakeStreamText)))
  = ai Demo.runtime
       (replaceTransport Demo.imports (originalStreamText Demo.imports))
       Demo.debugOn
       (Scenario.withProvider (Some (StreamTextOverride Scenario.fakeStreamText))).
Proof.
  exact (ai_override_hides_default Demo.runtime Demo.imports Demo.debugOn
           (Scenario.withProvider
              (Some (StreamTextOverride Scenario.fakeStreamText)))
           Scenario.fakeStreamText _ _ eq_refl).
Defined.

Lemma ai_undefined_override_fails_witness :
  let run := ai Demo.runtime Demo.imports Demo.debugOff
               (Scenario.withProvider (Some StreamTextUndefined)) in
  invocations KStreamText (trace run) = []
  ∧ ((∃ err, outcome run = inr (ResultError err))
     ∨ (∃ v thrown,
          toString Demo.runtime v = inl thrown ∧ outcome run = inl thrown)).
Proof.
  exact (ai_undefined_override_fails Demo.runtime Demo.imports Demo.debugOff
           (Scenario.withProvider (Some StreamTextUndefined)) eq_refl).
Defined.

Lemma ai_failure_provenance_witness :
  code Scenario.configError = AIRunError
  ∨ (∃ args,
        In (EvCreateProvider args)
           (trace (ai Demo.runtime Scenario.badCredentialImports Demo.debugOff
                     Demo.input))
        ∧ createProvider Scenario.badCredentialImports args
          = inr (ResultError Scenario.configError))
  ∨ (∃ tools,
        In (EvBuildTools tools)
           (trace (ai Demo.runtime Scenario.badCredentialImports Demo.debugOff
                     Demo.input))
        ∧ buildTools Scenario.badCredentialImports tools
          = inr (ResultError Scenario.configError)).
Proof.
  apply (ai_failure_provenance Demo.runtime Scenario.badCredentialImports
           Demo.debugOff Demo.input Scenario.configError).
  reflexivity.
Defined.

Lemma ai_quiet_by_default_witness :
  trace (ai Demo.runtime Demo.imports Scenario.debugAlmostOn Demo.input)
  = callsOf (ai Demo.runtime Demo.imports Scenario.debugAlmostOn Demo.input).
Proof.
  apply (ai_quiet_by_default Demo.runtime Demo.imports Scenario.debugAlmostOn
           Demo.input).
  intros H. vm_compute in H. discriminate H.
Defined.

Lemma ai_logs_request_first_witness :
  callsOf (ai Edge.conversions Edge.collaborators Demo.debugOn Edge.bigintInput) = []
  ∧ ∃ rest,
      trace (ai Edge.conversions Edge.collaborators Demo.debugOn Edge.bigintInput)
      = trace (debugRequest (Obj := nat) Edge.conversions Edge.bigintInput)
        ++ EvConsoleLog [LString (JS.nl +:+ "=== AI Request Error ===")]
           :: EvConsoleLog [LString "Error:"; LThrown Edge.notSerialisable]
           :: rest.
Proof.
  destruct (ai_logs_request_first Edge.conversions Edge.collaborators Demo.debugOn
              Edge.bigintInput eq_refl) as (_ & _ & Hthrown).
  destruct (Hthrown Edge.notSerialisable eq_refl) as (_ & Hcalls & Hrest).
  by split.
Defined.

Lemma ai_logs_the_thrown_value_witness :
  In (EvConsoleLog [LString "Error:"; LThrown Demo.rateLimited])
     (trace (ai Demo.runtime Demo.failingTransportImports Demo.debugOn
               Demo.input)).
Proof.
  apply (ai_logs_the_thrown_value Demo.runtime Demo.failingTransportImports
           Demo.debugOn Demo.input Demo.rateLimited); [reflexivity|].
  eapply RaisedByDispatch
    with (args := streamTextArgs Demo.input Scenario.accepted 2 None);
    [|reflexivity|reflexivity].
  cbv [In]. do 13 right. left. reflexivity.
Defined.

Lemma short_image_string_is_marked_witness :
  Diagnostics.preview (DString "iVBORw0KGgo") = "iVBORw0KGgo...".
Proof.
  apply (short_image_string_is_marked "iVBORw0KGgo"); [reflexivity|].
  simpl. lia.
Defined.

Lemma blocks_agree_without_data_witness :
  Diagnostics.snapshotConverted Scenario.originalFile
  = Diagnostics.snapshotOriginal Scenario.originalFile.
Proof.
  apply (blocks_agree_without_data Scenario.originalFile). right. reflexivity.
Defined.

Lemma snapshotMessage_keeps_the_shape_witness :
  snap_role (snapshotMessage Diagnostics.snapshotConverted Demo.userMessage)
  = "user".
Proof.
  destruct (snapshotMessage_keeps_the_shape Demo.userMessage _ eq_refl
              Diagnostics.snapshotConverted (or_intror eq_refl)) as [Hrole _].
  exact Hrole.
Defined.

Lemma handler_refuses_when_disabled_witness :
  fst (Setup.handler Scenario.closedServices Scenario.signup) = []
  ∧ ∃ message,
      snd (Setup.handler Scenario.closedServices Scenario.signup)
      = Setup.Threw (Setup.ForbiddenError message).
Proof.
  exact (handler_refuses_when_disabled Scenario.closedServices Scenario.signup
           eq_refl).
Defined.

Lemma handler_redirects_safely_witness :
  "https://app.latitude.so/projects/7" = Setup.dashboardRoot Scenario.services
  ∨ (Setup.returnTo Scenario.signup = Some "https://app.latitude.so/projects/7"
     ∧ "https://app.latitude.so/projects/7" ≠ ""
     ∧ Setup.isLatitudeUrl Scenario.services "https://app.latitude.so/projects/7"
       = true).
Proof.
  destruct (handler_redirects_safely Scenario.services Scenario.signup
              "https://app.latitude.so/projects/7" eq_refl) as [Hsafe _].
  exact Hsafe.
Defined.

Lemma handler_passes_the_service_error_on_witness :
  Setup.handler Scenario.refusingServices Scenario.signup
  = ([Setup.EvSetupService Scenario.signup],
     Setup.Threw (Setup.Rejected "workspace name taken")).
Proof.
  apply (handler_passes_the_service_error_on Scenario.refusingServices
           Scenario.signup "workspace name taken"); [reflexivity|].
  left. reflexivity.
Defined.

Lemma refinement_accepts_lower_case_witness :
  Email.refinement "jane.doe@example.com" = true.
Proof.
  apply (refinement_accepts_lower_case "jane.doe@example.com"); reflexivity.
Defined.

Lemma demo_serialisable :
  outcome (debugRequest (Obj := nat) Demo.runtime Demo.input) = inr tt
  ∧ ∀ rule,
      applyAllRules Demo.imports (applyAllRulesArgs Demo.input) = inr rule ->
      outcome (debugConverted (Obj := nat) Demo.runtime Demo.input rule) = inr tt.
Proof. split; [reflexivity|]. by intros rule [= <-]. Qed.

Lemma ai_flag_is_inert_when_logging_succeeds_witness :
  outcome (ai Demo.runtime Demo.imports Demo.debugOn Demo.input)
  = outcome (ai Demo.runtime Demo.imports Demo.debugOff Demo.input)
  ∧ callsOf (ai Demo.runtime Demo.imports Demo.debugOn Demo.input)
    = callsOf (ai Demo.runtime Demo.imports Demo.debugOff Demo.input).
Proof.
  apply (ai_flag_is_inert_when_logging_succeeds Demo.runtime Demo.imports
           Demo.debugOn Demo.debugOff Demo.input);
    [reflexivity | reflexivity | apply demo_serialisable
    | apply demo_serialisable].
Defined.

Lemma ai_hands_what_is_thrown_to_the_translator_witness :
  outcome (ai Demo.runtime Demo.failingTransportImports Demo.debugOn Demo.input)
  = inr (ResultError
           {| code := AIRunError;
              message := "Error: Too Many Requests and response body: "
                         +:+ "rate limit exceeded" |}).
Proof.
  assert (Hraise : raises Demo.runtime Demo.failingTransportImports Demo.input
                     (debugEnabled Demo.debugOn)
                     (trace (ai Demo.runtime Demo.failingTransportImports
                               Demo.debugOn Demo.input))
                     Demo.rateLimited).
  { eapply RaisedByDispatch
      with (args := streamTextArgs Demo.input Scenario.accepted 2 None);
      [|reflexivity|reflexivity].
    cbv [In]. do 13 right. left. reflexivity. }
  destruct (ai_hands_what_is_thrown_to_the_translator Demo.runtime
              Demo.failingTransportImports Demo.debugOn Demo.input _ Hraise)
    as (_ & Hmessage & _).
  by apply Hmessage.
Defined.
